(** * ADF4351 driver: frequency-to-register translation

    A shallow embedding of [ADF4351.cpp] / [ADF4351.h] and the properties of
    its divider selection, fractional-N synthesis and register packing.

    Conventions of the embedding.
    - The code is embedded once, over an interface [Double] of the
      operations it applies to [double] values, and read in two
      arithmetics: [exact], the rationals [Q], and [binary64], the IEEE-754
      doubles of [SpecFloat] with NaN and the infinities.  What depends on
      the values of doubles is proved in both: the comparisons and the
      products by the power-of-two dividers are exact on doubles, and the
      runs that go through a rounded quotient are computed in both.
      Dividing by zero gives [0] on [Q]; no statement on [Q] divides a
      [double] by zero.
    - [uint8_t], [uint16_t], [uint32_t] values are integers of [Z] kept in
      range by an explicit [mod 2^w].  [int] and [unsigned] are 32 bits wide.
      Converting an out-of-range [double] to [uint16_t] keeps the low 16 bits
      of the integer part, which is what the conversion routines of the
      targets produce (the language leaves it undefined).
    - The object's fields and the Arduino pins and SPI bus are threaded
      explicitly; the bus is observed as the list of calls made on it.
    - Integer division by zero is the one undefined operation the code can
      reach on finite inputs; it ends the run in [Fault]. *)

From Stdlib Require Import ZArith QArith Qround Qabs Lqa Lia List Bool Btauto.
From Stdlib Require Import Floats.SpecFloat.
From coqutil Require Import Z.bitblast.
Import ListNotations.
Local Open Scope Z_scope.

(** ** Fixed-width integers *)

Definition to_uint16 (z : Z) : Z := z mod 2 ^ 16.
Definition to_uint32 (z : Z) : Z := z mod 2 ^ 32.

(** [(uint32_t)a << n] *)
Definition shl32 (a n : Z) : Z := to_uint32 (Z.shiftl a n).

(** [reg = init; reg |= f1; reg |= f2; ...] *)
Definition or_fields (init : Z) (fields : list Z) : Z :=
  fold_left Z.lor fields init.

(** ** double *)

(** What the driver does with [double] values: literals, conversions from
    integers, [*], [/], [-], [<], [<=], and [floor] and [round] of <math.h>
    followed by a conversion to an integer. *)
Class Double (D : Type) := {
  lit : Q -> D;
  of_int : Z -> D;
  dmul : D -> D -> D;
  ddiv : D -> D -> D;
  dsub : D -> D -> D;
  dlt : D -> D -> bool;
  dle : D -> D -> bool;
  floor : D -> Z;
  round : D -> Z
}.

Definition dgt {D} `{Double D} (x y : D) : bool := dlt y x.
Definition dge {D} `{Double D} (x y : D) : bool := dle y x.

(** To the nearest integer, halves away from zero. *)
Definition round_half_away (x : Q) : Z :=
  if Qle_bool 0 x then Qfloor (x + (1 # 2)) else Qceiling (x - (1 # 2)).

(** Exact arithmetic. *)
#[export] Instance exact : Double Q := {|
  lit q := q;
  of_int := inject_Z;
  dmul := Qmult;
  ddiv := Qdiv;
  dsub := Qminus;
  dlt x y := negb (Qle_bool y x);
  dle := Qle_bool;
  floor := Qfloor;
  round := round_half_away
|}.

(** IEEE-754 binary64, rounding to nearest, ties to even. *)
Module Binary64.

Definition prec : Z := 53.
Definition emax : Z := 1024.

Definition of_Z (z : Z) : spec_float := binary_normalize prec emax z 0 false.

(** A decimal literal [n/d], [n] and [d] below 2^53: the nearest double. *)
Definition of_Q (q : Q) : spec_float :=
  SFdiv prec emax (of_Z (Qnum q)) (of_Z (Zpos (Qden q))).

(** The number a finite double stands for. *)
Definition value (x : spec_float) : option Q :=
  match x with
  | S754_zero _ => Some 0%Q
  | S754_finite s m e => Some (inject_Z (cond_Zopp s (Zpos m)) * 2 ^ e)%Q
  | S754_infinity _ | S754_nan => None
  end.

(** [f] of the value; 0 for NaN and the infinities, whose conversion to
    an integer the language leaves undefined. *)
Definition to_int (f : Q -> Z) (x : spec_float) : Z :=
  match value x with
  | Some q => f q
  | None => 0
  end.

(** A double as the format has it: a canonical mantissa and an exponent
  in range. *)
Definition valid (x : spec_float) : Prop := valid_binary prec emax x = true.

(** Doubles of 53-digit mantissas compare as the integers
  [e * 2^53 + mantissa]. *)
Definition key (p : positive) (e : Z) : Z := e * 2 ^ 53 + Zpos p.

End Binary64.

#[export] Instance binary64 : Double spec_float := {|
  lit := Binary64.of_Q;
  of_int := Binary64.of_Z;
  dmul := SFmul Binary64.prec Binary64.emax;
  ddiv := SFdiv Binary64.prec Binary64.emax;
  dsub := SFsub Binary64.prec Binary64.emax;
  dlt := SFltb;
  dle := SFleb;
  floor := Binary64.to_int Qfloor;
  round := Binary64.to_int round_half_away
|}.

(** ** Arduino pins and SPI bus *)

Inductive level := LOW | HIGH.

Inductive event :=
| PinModeOutput (pin : Z)
| DigitalWrite (pin : Z) (l : level)
| SPIBegin
| SPISetDataMode0
| SPISetBitOrderMSBFirst
| SPITransfer (byte : Z)
| DelayMicroseconds (us : Z).

(** The bus traffic of one [writeRegister data] on LE pin [lePin]. *)
Definition frame (lePin data : Z) : list event :=
  [DigitalWrite lePin LOW;
   SPITransfer (Z.land (Z.shiftr data 24) 0xFF);
   SPITransfer (Z.land (Z.shiftr data 16) 0xFF);
   SPITransfer (Z.land (Z.shiftr data 8) 0xFF);
   SPITransfer (Z.land data 0xFF);
   DigitalWrite lePin HIGH;
   DelayMicroseconds 5].

(** *** The register sink

    What the chip latches: each low pulse of LE that carries four bytes,
    most significant first, is one 32-bit word. *)

Definition word_of_bytes (b3 b2 b1 b0 : Z) : Z :=
  Z.lor (Z.lor (Z.lor (Z.shiftl b3 24) (Z.shiftl b2 16)) (Z.shiftl b1 8)) b0.

Fixpoint sink_words (t : list event) : list Z :=
  match t with
  | [] => []
  | DigitalWrite _ LOW :: SPITransfer b3 :: SPITransfer b2 :: SPITransfer b1
      :: SPITransfer b0 :: DigitalWrite _ HIGH :: t' =>
      word_of_bytes b3 b2 b1 b0 :: sink_words t'
  | _ :: t' => sink_words t'
  end.

(** The output dividers of the chip. *)
Definition dividers : list Z := [1; 2; 4; 8; 16; 32; 64].

(** The fault of an undefined operation. *)
Inductive fault := DivisionByZero.

Section Driver.

Context {double : Type} {arith : Double double}.

(** ** The driver object *)

Record ADF4351 := mkADF4351 {
  _lePin : Z;
  _refFreqMHz : double;
  _outputFreqMHz : double;
  _pfdFreqMHz : double;
  _rCounter : Z;
  _refDoubler : Z;
  _refDiv2 : Z;
  _outputPower : Z;
  _rfOutputEnable : Z;
  _chargePumpCurr : Z
}.

Definition set_refFreqMHz (v : double) (o : ADF4351) : ADF4351 :=
  mkADF4351 (_lePin o) v (_outputFreqMHz o) (_pfdFreqMHz o) (_rCounter o)
    (_refDoubler o) (_refDiv2 o) (_outputPower o) (_rfOutputEnable o)
    (_chargePumpCurr o).

Definition set_outputFreqMHz (v : double) (o : ADF4351) : ADF4351 :=
  mkADF4351 (_lePin o) (_refFreqMHz o) v (_pfdFreqMHz o) (_rCounter o)
    (_refDoubler o) (_refDiv2 o) (_outputPower o) (_rfOutputEnable o)
    (_chargePumpCurr o).

Definition set_pfdFreqMHz (v : double) (o : ADF4351) : ADF4351 :=
  mkADF4351 (_lePin o) (_refFreqMHz o) (_outputFreqMHz o) v (_rCounter o)
    (_refDoubler o) (_refDiv2 o) (_outputPower o) (_rfOutputEnable o)
    (_chargePumpCurr o).

Definition set_rCounter (v : Z) (o : ADF4351) : ADF4351 :=
  mkADF4351 (_lePin o) (_refFreqMHz o) (_outputFreqMHz o) (_pfdFreqMHz o) v
    (_refDoubler o) (_refDiv2 o) (_outputPower o) (_rfOutputEnable o)
    (_chargePumpCurr o).

Definition set_refDoubler (v : Z) (o : ADF4351) : ADF4351 :=
  mkADF4351 (_lePin o) (_refFreqMHz o) (_outputFreqMHz o) (_pfdFreqMHz o)
    (_rCounter o) v (_refDiv2 o) (_outputPower o) (_rfOutputEnable o)
    (_chargePumpCurr o).

Definition set_refDiv2 (v : Z) (o : ADF4351) : ADF4351 :=
  mkADF4351 (_lePin o) (_refFreqMHz o) (_outputFreqMHz o) (_pfdFreqMHz o)
    (_rCounter o) (_refDoubler o) v (_outputPower o) (_rfOutputEnable o)
    (_chargePumpCurr o).

Definition set_outputPower (v : Z) (o : ADF4351) : ADF4351 :=
  mkADF4351 (_lePin o) (_refFreqMHz o) (_outputFreqMHz o) (_pfdFreqMHz o)
    (_rCounter o) (_refDoubler o) (_refDiv2 o) v (_rfOutputEnable o)
    (_chargePumpCurr o).

Definition set_rfOutputEnable (v : Z) (o : ADF4351) : ADF4351 :=
  mkADF4351 (_lePin o) (_refFreqMHz o) (_outputFreqMHz o) (_pfdFreqMHz o)
    (_rCounter o) (_refDoubler o) (_refDiv2 o) (_outputPower o) v
    (_chargePumpCurr o).

Definition set_chargePumpCurr (v : Z) (o : ADF4351) : ADF4351 :=
  mkADF4351 (_lePin o) (_refFreqMHz o) (_outputFreqMHz o) (_pfdFreqMHz o)
    (_rCounter o) (_refDoubler o) (_refDiv2 o) (_outputPower o)
    (_rfOutputEnable o) v.

(** The object together with the hardware it drives. *)
Record machine := mkMachine {
  this : ADF4351;
  bus : list event
}.

(** ** Runs: state, and the fault of an undefined operation *)

Inductive outcome (A : Type) :=
| Ok (a : A) (m : machine)
| Fault (e : fault).
Arguments Ok {A} a m.
Arguments Fault {A} e.

Definition M (A : Type) := machine -> outcome A.

Definition ret {A} (a : A) : M A := fun m => Ok a m.

Definition bind {A B} (c : M A) (k : A -> M B) : M B :=
  fun m => match c m with
           | Ok a m' => k a m'
           | Fault e => Fault e
           end.

Definition raise {A} (e : fault) : M A := fun _ => Fault e.

Notation "x <- c ;; k" := (bind c (fun x => k))
  (at level 61, c at next level, right associativity).
Notation "c ;; k" := (bind c (fun _ => k))
  (at level 61, right associativity).

Definition get_this : M ADF4351 := fun m => Ok (this m) m.

Definition modify_this (f : ADF4351 -> ADF4351) : M unit :=
  fun m => Ok tt (mkMachine (f (this m)) (bus m)).

Definition emit (e : event) : M unit :=
  fun m => Ok tt (mkMachine (this m) (bus m ++ [e])).

(** [a / b] and [a % b] on unsigned operands. *)
Definition udiv (a b : Z) : M Z :=
  if b =? 0 then raise DivisionByZero else ret (a / b).

Definition umod (a b : Z) : M Z :=
  if b =? 0 then raise DivisionByZero else ret (a mod b).

(** ** ADF4351.cpp *)

(** [ADF4351::ADF4351(uint8_t lePin)] *)
Definition ADF4351_new (lePin : Z) : ADF4351 :=
  mkADF4351 lePin (lit 25) (lit 0) (lit 25) 1 0 0 3 1 7.

(** [_refFreqMHz * (1 + _refDoubler) / (_rCounter * (1 + _refDiv2))] *)
Definition pfd_of (o : ADF4351) : double :=
  ddiv (dmul (_refFreqMHz o) (of_int (1 + _refDoubler o)))
       (of_int (_rCounter o * (1 + _refDiv2 o))).

(** [void ADF4351::begin(double refFreqMHz)] *)
Definition begin (refFreqMHz : double) : M unit :=
  modify_this (set_refFreqMHz refFreqMHz) ;;
  o <- get_this ;;
  emit (PinModeOutput (_lePin o)) ;;
  emit (DigitalWrite (_lePin o) HIGH) ;;
  emit SPIBegin ;;
  emit SPISetDataMode0 ;;
  emit SPISetBitOrderMSBFirst ;;
  o <- get_this ;;
  modify_this (set_pfdFreqMHz (pfd_of o)).

(** [void ADF4351::setReference(double, uint8_t, uint8_t, uint8_t)] *)
Definition setReference (refFreqMHz : double) (rCounter refDoubler refDiv2 : Z)
  : M unit :=
  modify_this (set_refFreqMHz refFreqMHz) ;;
  modify_this (set_rCounter rCounter) ;;
  modify_this (set_refDoubler refDoubler) ;;
  modify_this (set_refDiv2 refDiv2) ;;
  o <- get_this ;;
  modify_this (set_pfdFreqMHz (pfd_of o)).

(** [void ADF4351::setOutputPower(uint8_t power)] *)
Definition setOutputPower (power : Z) : M unit :=
  let power := if power >? 3 then 3 else power in
  modify_this (set_outputPower power).

(** [void ADF4351::enableOutput(bool enable)] *)
Definition enableOutput (enable : bool) : M unit :=
  modify_this (set_rfOutputEnable (if enable then 1 else 0)).

(** [void ADF4351::setChargePumpCurrent(uint8_t current)] *)
Definition setChargePumpCurrent (current : Z) : M unit :=
  let current := if current >? 15 then 15 else current in
  modify_this (set_chargePumpCurr current).

(** [double ADF4351::getFrequency() const] *)
Definition getFrequency : M double :=
  o <- get_this ;; ret (_outputFreqMHz o).

(** [double ADF4351::getPFDFrequency() const] *)
Definition getPFDFrequency : M double :=
  o <- get_this ;; ret (_pfdFreqMHz o).

(** [void ADF4351::writeRegister(uint32_t data)] *)
Definition writeRegister (data : Z) : M unit :=
  o <- get_this ;;
  emit (DigitalWrite (_lePin o) LOW) ;;
  emit (SPITransfer (Z.land (Z.shiftr data 24) 0xFF)) ;;
  emit (SPITransfer (Z.land (Z.shiftr data 16) 0xFF)) ;;
  emit (SPITransfer (Z.land (Z.shiftr data 8) 0xFF)) ;;
  emit (SPITransfer (Z.land data 0xFF)) ;;
  emit (DigitalWrite (_lePin o) HIGH) ;;
  emit (DelayMicroseconds 5).

(** [void ADF4351::selectOutputDivider(double freqMHz, double &outDivider,
    uint8_t &outRFdivSel)]; the two references are returned as a pair. *)
Definition selectOutputDivider (freqMHz : double) : double * Z :=
  if dge freqMHz (lit 2200) then (lit 1, 0)
  else if dge freqMHz (lit 1100) then (lit 2, 1)
  else if dge freqMHz (lit 550) then (lit 4, 2)
  else if dge freqMHz (lit 275) then (lit 8, 3)
  else if dge freqMHz (lit 137.5) then (lit 16, 4)
  else if dge freqMHz (lit 68.75) then (lit 32, 5)
  else (lit 64, 6).

(** The locals of [updateRegisters] once the synthesis is computed
    (ADF4351.cpp, lines 120-159), before the registers are packed. *)
Record synthesis := mkSynthesis {
  outputDivider : double;
  RFdivSel : Z;
  vcoFreqMHz : double;
  N_int : Z;
  MOD : Z;
  N_frac : Z;
  prescaler : Z;
  ldp : Z;
  ldf : Z;
  feedbackSelect : Z;
  bandSelDiv : Z
}.

(** [uint16_t MOD = (uint16_t)round(_pfdFreqMHz / channelSpacingMHz);
     if (MOD > 4095) MOD = 4095;] *)
Definition modulus (pfdFreqMHz channelSpacingMHz : double) : Z :=
  let MOD := to_uint16 (round (ddiv pfdFreqMHz channelSpacingMHz)) in
  if MOD >? 4095 then 4095 else MOD.

(** [if (N_frac >= MOD) { N_int += N_frac / MOD; N_frac = N_frac % MOD; }];
    gives the pair [(N_int, N_frac)]. *)
Definition carry (N_int N_frac MOD : Z) : M (Z * Z) :=
  if N_frac >=? MOD then
    q <- udiv N_frac MOD ;;
    let N_int := to_uint16 (N_int + q) in
    r <- umod N_frac MOD ;;
    let N_frac := to_uint16 r in
    ret (N_int, N_frac)
  else ret (N_int, N_frac).

(** [updateRegisters], lines 120-159: divider, VCO check, N, MOD, flags.
    [None] is the [return false] of the VCO check. *)
Definition updateRegisters_synthesis (channelSpacingMHz : double)
  : M (option synthesis) :=
  o <- get_this ;;
  let '(outputDivider, RFdivSel) := selectOutputDivider (_outputFreqMHz o) in
  let vcoFreqMHz := dmul (_outputFreqMHz o) outputDivider in
  if dlt vcoFreqMHz (lit 2200) || dgt vcoFreqMHz (lit 4400) then ret None
  else
    let N := ddiv vcoFreqMHz (_pfdFreqMHz o) in
    let N_int := to_uint16 (floor N) in
    let MOD := modulus (_pfdFreqMHz o) channelSpacingMHz in
    let N_frac :=
      to_uint16 (round (dmul (dsub N (of_int N_int)) (of_int MOD))) in
    nn <- carry N_int N_frac MOD ;;
    let '(N_int, N_frac) := nn in
    let prescaler := if N_int <? 75 then 0 else 1 in
    let ldp := if N_frac =? 0 then 1 else 0 in
    let ldf := if N_frac =? 0 then 1 else 0 in
    let feedbackSelect := if dgt outputDivider (lit 1) then 1 else 1 in
    let bandSelDiv := 200 in
    ret (Some (mkSynthesis outputDivider RFdivSel vcoFreqMHz N_int MOD N_frac
                 prescaler ldp ldf feedbackSelect bandSelDiv)).

(** R0: frequency setup. *)
Definition reg0 (s : synthesis) : Z :=
  or_fields 0x0 [shl32 (N_int s) 15; shl32 (N_frac s) 3].

(** R1: MOD, phase, prescaler. *)
Definition reg1 (s : synthesis) : Z :=
  or_fields 0x1 [shl32 (MOD s) 3; shl32 1 15; shl32 (prescaler s) 27].

(** R2: reference and phase detector settings. *)
Definition reg2 (o : ADF4351) (s : synthesis) : Z :=
  or_fields 0x2
    [shl32 0 3; shl32 0 4; shl32 0 5; shl32 1 6;
     shl32 (ldp s) 7; shl32 (ldf s) 8;
     shl32 (_chargePumpCurr o) 9;
     shl32 0 13;
     shl32 (_rCounter o) 14;
     shl32 (_refDiv2 o) 24;
     shl32 (_refDoubler o) 25;
     shl32 0 26; shl32 0 29].

(** R3: clock divider settings. *)
Definition reg3 : Z :=
  or_fields 0x3
    [shl32 150 3; shl32 0 15; shl32 0 18; shl32 0 21; shl32 0 22; shl32 0 23].

(** R4: output settings. *)
Definition reg4 (o : ADF4351) (s : synthesis) : Z :=
  or_fields 0x4
    [shl32 (Z.land (_outputPower o) 0x3) 3;
     shl32 (_rfOutputEnable o) 5;
     shl32 0 6; shl32 0 8; shl32 0 9; shl32 0 10; shl32 0 11;
     shl32 (Z.land (bandSelDiv s) 0xFF) 12;
     shl32 (Z.land (RFdivSel s) 0x7) 20;
     shl32 (feedbackSelect s) 23].

(** R5: lock detect and reserved bits. *)
Definition reg5 : Z :=
  or_fields 0x5 [shl32 3 19; shl32 0 21; shl32 1 22].

(** [bool ADF4351::updateRegisters(double channelSpacingMHz)] *)
Definition updateRegisters (channelSpacingMHz : double) : M bool :=
  p <- updateRegisters_synthesis channelSpacingMHz ;;
  match p with
  | None => ret false
  | Some s =>
      o <- get_this ;;
      writeRegister reg5 ;;
      writeRegister (reg4 o s) ;;
      writeRegister reg3 ;;
      writeRegister (reg2 o s) ;;
      writeRegister (reg1 s) ;;
      writeRegister (reg0 s) ;;
      ret true
  end.

(** [bool ADF4351::setFrequency(double freqMHz, double channelSpacingMHz)] *)
Definition setFrequency (freqMHz channelSpacingMHz : double) : M bool :=
  if dlt freqMHz (lit 35) || dgt freqMHz (lit 4400) then ret false
  else
    modify_this (set_outputFreqMHz freqMHz) ;;
    updateRegisters channelSpacingMHz.

(** ** Machines and words *)

(** A driver fresh from its constructor, on LE pin [lePin], nothing yet
    done on the bus. *)
Definition power_on (lePin : Z) : machine :=
  mkMachine (ADF4351_new lePin) [].

(** The machine [setFrequency] hands to [updateRegisters]. *)
Definition with_frequency (f : double) (m : machine) : machine :=
  mkMachine (set_outputFreqMHz f (this m)) (bus m).

(** The six words of a run of [updateRegisters], in the order written. *)
Definition words (o : ADF4351) (s : synthesis) : list Z :=
  [reg5; reg4 o s; reg3; reg2 o s; reg1 s; reg0 s].

(** The machine a run leaves; the machine it started from if it faults. *)
Definition after {A} (c : M A) (m : machine) : machine :=
  match c m with
  | Ok _ m' => m'
  | Fault _ => m
  end.

(** ** Properties, in the comparisons of the code *)

(** [35.0 <= f && f <= 4400.0] *)
Definition supported (f : double) : Prop :=
  dge f (lit 35) = true /\ dle f (lit 4400) = true.

(** The breakpoint table of [selectOutputDivider] at [f]; its divider is
    one of the chip's and the smallest of them that brings the product to
    2200 or more; the product is below 4400 unless [f] is 4400, where the
    divider is 1. *)
Definition divider_table (f : double) : Prop :=
  let d := fst (selectOutputDivider f) in
  (dge f (lit 2200) = true -> selectOutputDivider f = (lit 1, 0)) /\
  (dge f (lit 1100) = true -> dlt f (lit 2200) = true ->
   selectOutputDivider f = (lit 2, 1)) /\
  (dge f (lit 550) = true -> dlt f (lit 1100) = true ->
   selectOutputDivider f = (lit 4, 2)) /\
  (dge f (lit 275) = true -> dlt f (lit 550) = true ->
   selectOutputDivider f = (lit 8, 3)) /\
  (dge f (lit 137.5) = true -> dlt f (lit 275) = true ->
   selectOutputDivider f = (lit 16, 4)) /\
  (dge f (lit 68.75) = true -> dlt f (lit 137.5) = true ->
   selectOutputDivider f = (lit 32, 5)) /\
  (dlt f (lit 68.75) = true -> selectOutputDivider f = (lit 64, 6)) /\
  (exists k, In k dividers /\ d = of_int k) /\
  dge (dmul f d) (lit 2200) = true /\
  (forall k, In k dividers -> dge (dmul f (of_int k)) (lit 2200) = true ->
             dle d (of_int k) = true) /\
  (dlt f (lit 4400) = true -> dlt (dmul f d) (lit 4400) = true) /\
  (dge f (lit 4400) = true ->
   d = lit 1 /\ dle (dmul f d) (lit 4400) = true).

(** The VCO check of [updateRegisters] on the divider chosen for [f]. *)
Definition vco_rejected (f : double) : bool :=
  let vcoFreqMHz := dmul f (fst (selectOutputDivider f)) in
  dlt vcoFreqMHz (lit 2200) || dgt vcoFreqMHz (lit 4400).

(** The VCO frequency for [f] is within 2200 and 4400, the rejection branch
    of [updateRegisters] is not taken, and [setFrequency f c] does not
    return [false]. *)
Definition vco_accepted (f c : double) (m : machine) : Prop :=
  let vcoFreqMHz := dmul f (fst (selectOutputDivider f)) in
  dge vcoFreqMHz (lit 2200) = true /\ dle vcoFreqMHz (lit 4400) = true /\
  vco_rejected f = false /\
  (forall m0 m',
      _outputFreqMHz (this m0) = f ->
      updateRegisters_synthesis c m0 <> Ok None m' /\
      updateRegisters c m0 <> Ok false m') /\
  (forall m', setFrequency f c m <> Ok false m').

(** A frequency out of range makes [setFrequency f c] return [false]; and a
    [setFrequency f c] that returns [false] leaves the stored frequency, the
    answer of [getFrequency] and the bus as they were. *)
Definition failure_isolated (f c : double) (m : machine) : Prop :=
  (dlt f (lit 35) = true \/ dgt f (lit 4400) = true ->
   setFrequency f c m = Ok false m) /\
  (forall m', setFrequency f c m = Ok false m' ->
              _outputFreqMHz (this m') = _outputFreqMHz (this m) /\
              getFrequency m' = getFrequency m /\
              bus m' = bus m /\
              sink_words (bus m') = sink_words (bus m)).

(** The 1000 MHz scenario of the specification, from machine [m]: what
    [setReference(25, 1, 0, 0)] and then [setFrequency(1000.0, 0.01)]
    compute and write. *)
Definition scenario_1000 (m : machine) : Prop :=
  exists m1 m2 s,
    setReference (lit 25) 1 0 0 m = Ok tt m1 /\
    getPFDFrequency m1 = Ok (lit 25) m1 /\
    selectOutputDivider (lit 1000) = (lit 4, 2) /\
    updateRegisters_synthesis (lit 0.01) (with_frequency (lit 1000) m1)
    = Ok (Some s) (with_frequency (lit 1000) m1) /\
    s = mkSynthesis (lit 4) 2 (lit 4000) 160 2500 0 1 1 1 1 200 /\
    reg0 s = 5242880 /\
    Z.lor (Z.lor (Z.shiftl 160 15) (Z.shiftl 0 3)) 0 = 5242880 /\
    setFrequency (lit 1000) (lit 0.01) m1 = Ok true m2 /\
    bus m2 = bus m1 ++ flat_map (frame (_lePin (this m))) (words (this m2) s) /\
    last (sink_words (flat_map (frame (_lePin (this m))) (words (this m2) s))) 0
    = 5242880.

End Driver.

Arguments ADF4351 : clear implicits.
Arguments machine : clear implicits.
Arguments synthesis : clear implicits.
Arguments outcome : clear implicits.
Arguments M : clear implicits.
Arguments Ok {double A} a m.
Arguments Fault {double A} e.

Notation "x <- c ;; k" := (bind c (fun x => k))
  (at level 61, c at next level, right associativity).
Notation "c ;; k" := (bind c (fun _ => k))
  (at level 61, right associativity).


(** ** Machines of the concrete runs *)

(** The machine left by [setFrequency(1000.0, 0.01)] on a driver fresh from
    its constructor, LE on pin 10: in exact arithmetic, and on doubles. *)
Definition tuned_1000 : machine Q :=
  Eval vm_compute in after (setFrequency 1000%Q 0.01%Q) (power_on 10).

Definition tuned_1000_binary64 : machine spec_float :=
  Eval vm_compute in after (setFrequency (lit 1000) (lit 0.01)) (power_on 10).

(** ** Reading the words and the settings *)

(** Bits [off .. off + width - 1] of a register word. *)
Definition field (w off width : Z) : Z :=
  Z.land (Z.shiftr w off) (Z.ones width).

(** From machine [m] to machine [m'] the sink has received the words
    [ws], and nothing else has been added to the bus that it latches. *)
Definition emits {double : Type} (m m' : machine double) (ws : list Z) : Prop :=
  exists t, bus m' = bus m ++ t /\ sink_words t = ws.

(** A [uint8_t] argument. *)
Definition uint8 (v : Z) : Prop := 0 <= v <= 255.

(** The settings within the widths of the register fields they go to:
    two bits of output power, one of output enable, four of charge-pump
    current; the reference settings are [uint8_t] fields. *)
Definition settings_in_range {double : Type} (o : ADF4351 double) : Prop :=
  0 <= _outputPower o <= 3 /\
  0 <= _rfOutputEnable o <= 1 /\
  0 <= _chargePumpCurr o <= 15 /\
  uint8 (_rCounter o) /\ uint8 (_refDoubler o) /\ uint8 (_refDiv2 o).

(** [setFrequency f c] faults on a zero modulus and otherwise returns
    [true] with [f] stored. *)
Definition succeeds_unless_zero_modulus {double : Type} {arith : Double double}
  (f c : double) (m : machine double) : Prop :=
  (modulus (_pfdFreqMHz (this m)) c = 0 /\
   setFrequency f c m = Fault DivisionByZero) \/
  (0 < modulus (_pfdFreqMHz (this m)) c /\
   exists m', setFrequency f c m = Ok true m' /\
              this m' = set_outputFreqMHz f (this m)).

(** * Properties *)

(** ** Fixed-width integers and register words *)

Lemma to_uint16_range (z : Z) : 0 <= to_uint16 z < 65536.
Proof. unfold to_uint16. apply Z.mod_pos_bound. reflexivity. Qed.

Lemma to_uint16_small (z : Z) : 0 <= z < 65536 -> to_uint16 z = z.
Proof. intro H. unfold to_uint16. now apply Z.mod_small. Qed.

Lemma shl32_range (a n : Z) : 0 <= shl32 a n < 2 ^ 32.
Proof. unfold shl32, to_uint32. apply Z.mod_pos_bound. reflexivity. Qed.

(** A field shifted by three places or more leaves the address bits alone. *)
Lemma shl32_low3 (a n : Z) : 3 <= n -> Z.land (shl32 a n) 7 = 0.
Proof.
  intro Hn. change 7 with (Z.ones 3). rewrite Z.land_ones by lia.
  unfold shl32, to_uint32.
  rewrite Z.mod_mod_divide by (exists (2 ^ 29); reflexivity).
  rewrite Z.shiftl_mul_pow2 by lia.
  replace n with (n - 3 + 3) by lia.
  rewrite Z.pow_add_r by lia. rewrite Z.mul_assoc.
  apply Z.mod_mul. discriminate.
Qed.

Lemma lor_range (n a b : Z) :
  0 <= n -> 0 <= a < 2 ^ n -> 0 <= b < 2 ^ n -> 0 <= Z.lor a b < 2 ^ n.
Proof.
  intros Hn Ha Hb.
  assert (E : Z.lor a b = Z.lor a b mod 2 ^ n).
  { rewrite <- (Z.mod_small a (2 ^ n)) at 1 by assumption.
    rewrite <- (Z.mod_small b (2 ^ n)) at 1 by assumption.
    Z.bitblast. }
  rewrite E. apply Z.mod_pos_bound. apply Z.pow_pos_nonneg; lia.
Qed.

Lemma or_fields_low3 (fields : list Z) (init : Z) :
  Forall (fun x => Z.land x 7 = 0) fields ->
  Z.land (or_fields init fields) 7 = Z.land init 7.
Proof.
  unfold or_fields. intro H. revert init.
  induction H as [ | x l Hx _ IH]; intro init; cbn [fold_left].
  - reflexivity.
  - rewrite IH, Z.land_lor_distr_l, Hx. apply Z.lor_0_r.
Qed.

Lemma or_fields_range (fields : list Z) (init : Z) :
  0 <= init < 2 ^ 32 ->
  Forall (fun x => 0 <= x < 2 ^ 32) fields ->
  0 <= or_fields init fields < 2 ^ 32.
Proof.
  unfold or_fields. intros Hi H. revert init Hi.
  induction H as [ | x l Hx _ IH]; intros init Hi; cbn [fold_left].
  - assumption.
  - apply IH. apply lor_range; [lia | assumption | assumption].
Qed.

(** The four bytes of a transfer, put together again, are the word. *)
Lemma word_of_bytes_split (w : Z) :
  0 <= w < 2 ^ 32 ->
  word_of_bytes (Z.land (Z.shiftr w 24) 0xFF) (Z.land (Z.shiftr w 16) 0xFF)
    (Z.land (Z.shiftr w 8) 0xFF) (Z.land w 0xFF) = w.
Proof.
  intro Hw.
  assert (E : forall v, word_of_bytes
                (Z.land (Z.shiftr (v mod 2 ^ 32) 24) (Z.ones 8))
                (Z.land (Z.shiftr (v mod 2 ^ 32) 16) (Z.ones 8))
                (Z.land (Z.shiftr (v mod 2 ^ 32) 8) (Z.ones 8))
                (Z.land (v mod 2 ^ 32) (Z.ones 8)) = v mod 2 ^ 32).
  { intro v. unfold word_of_bytes. Z.bitblast.
    all: rewrite Z.testbit_mod_pow2 by lia.
    all: destruct (Z.ltb_spec l1 32); try lia; btauto. }
  specialize (E w). rewrite (Z.mod_small w) in E by assumption. exact E.
Qed.

Lemma sink_words_frames (lePin : Z) (ws : list Z) :
  Forall (fun w => 0 <= w < 2 ^ 32) ws ->
  sink_words (flat_map (frame lePin) ws) = ws.
Proof.
  induction 1 as [ | w ws Hw _ IH]; [reflexivity | ].
  cbn [flat_map frame app sink_words].
  rewrite word_of_bytes_split by assumption. now rewrite IH.
Qed.

Ltac fields_low3 :=
  rewrite or_fields_low3;
  [reflexivity
  | repeat (apply Forall_cons; [apply shl32_low3; lia | ]); apply Forall_nil].

Ltac fields_range :=
  apply or_fields_range;
  [lia | repeat (apply Forall_cons; [apply shl32_range | ]); apply Forall_nil].

(** ** Facts of every arithmetic *)

Section AnyArithmetic.

Context {double : Type} {arith : Double double}.

Implicit Types (m : machine double) (o : ADF4351 double)
  (s : synthesis double) (f c : double).

Lemma words_addresses o s :
  map (fun w => Z.land w 7) (words o s) = [5; 4; 3; 2; 1; 0].
Proof.
  unfold words. cbn [map].
  assert (H5 : Z.land reg5 7 = 5) by (unfold reg5; fields_low3).
  assert (H4 : Z.land (reg4 o s) 7 = 4) by (unfold reg4; fields_low3).
  assert (H3 : Z.land reg3 7 = 3) by (unfold reg3; fields_low3).
  assert (H2 : Z.land (reg2 o s) 7 = 2) by (unfold reg2; fields_low3).
  assert (H1 : Z.land (reg1 s) 7 = 1) by (unfold reg1; fields_low3).
  assert (H0 : Z.land (reg0 s) 7 = 0) by (unfold reg0; fields_low3).
  rewrite H5, H4, H3, H2, H1, H0. reflexivity.
Qed.

Lemma words_range o s : Forall (fun w => 0 <= w < 2 ^ 32) (words o s).
Proof.
  unfold words.
  assert (H5 : 0 <= reg5 < 2 ^ 32) by (unfold reg5; fields_range).
  assert (H4 : 0 <= reg4 o s < 2 ^ 32) by (unfold reg4; fields_range).
  assert (H3 : 0 <= reg3 < 2 ^ 32) by (unfold reg3; fields_range).
  assert (H2 : 0 <= reg2 o s < 2 ^ 32) by (unfold reg2; fields_range).
  assert (H1 : 0 <= reg1 s < 2 ^ 32) by (unfold reg1; fields_range).
  assert (H0 : 0 <= reg0 s < 2 ^ 32) by (unfold reg0; fields_range).
  repeat (apply Forall_cons; [assumption | ]). apply Forall_nil.
Qed.

Lemma bind_Ok {A B} (k1 : M double A) (k2 : A -> M double B) m b m'' :
  (x <- k1 ;; k2 x) m = Ok b m'' ->
  exists a m', k1 m = Ok a m' /\ k2 a m' = Ok b m''.
Proof.
  unfold bind. destruct (k1 m) as [a m' | e]; [ | discriminate].
  intro H. now exists a, m'.
Qed.

Lemma Ok_inj {A} (a b : A) m1 m2 :
  Ok a m1 = Ok b m2 -> a = b /\ m1 = m2.
Proof. intro H. now inversion H. Qed.

Lemma writeRegister_run (data : Z) m :
  writeRegister data m
  = Ok tt (mkMachine (this m) (bus m ++ frame (_lePin (this m)) data)).
Proof.
  unfold writeRegister, bind, get_this, emit, frame. cbn.
  repeat rewrite <- app_assoc. reflexivity.
Qed.

Lemma write_six (w5 w4 w3 w2 w1 w0 : Z) m :
  (writeRegister w5 ;; writeRegister w4 ;; writeRegister w3 ;;
   writeRegister w2 ;; writeRegister w1 ;; writeRegister w0 ;; ret true) m
  = Ok true
      (mkMachine (this m)
         (bus m ++ flat_map (frame (_lePin (this m))) [w5; w4; w3; w2; w1; w0])).
Proof.
  unfold bind, ret.
  repeat (rewrite writeRegister_run; cbn [this bus]).
  cbn [flat_map]. repeat rewrite <- app_assoc. rewrite app_nil_r.
  reflexivity.
Qed.

Lemma modulus_range (pfd c : double) : 0 <= modulus pfd c <= 4095.
Proof.
  unfold modulus.
  pose proof (to_uint16_range (round (ddiv pfd c))) as H.
  destruct (Z.gtb_spec (to_uint16 (round (ddiv pfd c))) 4095); lia.
Qed.

(** As long as the rounded ratio fits [uint16_t], the modulus is the ratio
    capped at 4095. *)
Lemma modulus_in_range (pfd c : double) :
  0 <= round (ddiv pfd c) < 65536 ->
  modulus pfd c = Z.min (round (ddiv pfd c)) 4095.
Proof.
  intro H. unfold modulus. rewrite to_uint16_small by assumption.
  destruct (Z.gtb_spec (round (ddiv pfd c)) 4095); lia.
Qed.

(** The carry either stops on a zero modulus or leaves the numerator below
    the modulus. *)
Lemma carry_cases (n nf md : Z) m :
  0 <= nf < 65536 -> 0 <= md ->
  (md = 0 /\ carry n nf md m = Fault DivisionByZero) \/
  (0 < md /\
   exists n' nf', carry n nf md m = Ok (n', nf') m /\ 0 <= nf' < md).
Proof.
  intros Hf Hmd. unfold carry, udiv, umod, bind, ret, raise.
  destruct (Z.geb_spec nf md) as [Hge | Hlt].
  - destruct (Z.eqb_spec md 0) as [-> | Hnz]; [now left | right].
    split; [lia | ]. eexists. eexists. split; [reflexivity | ].
    pose proof (Z.mod_pos_bound nf md ltac:(lia)) as Hr.
    pose proof (Z.mod_le nf md ltac:(lia) ltac:(lia)) as Hle.
    rewrite to_uint16_small; lia.
  - right. split; [lia | ]. exists n, nf. split; [reflexivity | lia].
Qed.

(** The synthesis, by cases: the VCO check rejects; or the modulus is zero
    and the carry faults; or there is a result, whose numerator is below
    its modulus.  The machine is left as it was. *)
Lemma updateRegisters_synthesis_cases c m :
  (vco_rejected (_outputFreqMHz (this m)) = true /\
   updateRegisters_synthesis c m = Ok None m) \/
  (vco_rejected (_outputFreqMHz (this m)) = false /\
   modulus (_pfdFreqMHz (this m)) c = 0 /\
   updateRegisters_synthesis c m = Fault DivisionByZero) \/
  (vco_rejected (_outputFreqMHz (this m)) = false /\
   exists s, updateRegisters_synthesis c m = Ok (Some s) m /\
             MOD s = modulus (_pfdFreqMHz (this m)) c /\
             0 <= N_frac s < MOD s).
Proof.
  unfold vco_rejected.
  remember (updateRegisters_synthesis c m) as r eqn:E.
  unfold updateRegisters_synthesis, bind at 1, get_this in E.
  cbv beta iota in E.
  destruct (selectOutputDivider _) as [d sel]. cbn [fst].
  destruct (_ || _).
  - left. now subst r.
  - right. unfold bind in E.
    set (md := modulus (_pfdFreqMHz (this m)) c) in *.
    set (N := ddiv (dmul (_outputFreqMHz (this m)) d) (_pfdFreqMHz (this m)))
      in *.
    set (n := to_uint16 (floor N)) in *.
    set (nf := to_uint16 (round (dmul (dsub N (of_int n)) (of_int md)))) in *.
    destruct (carry_cases n nf md m (to_uint16_range _)
                (proj1 (modulus_range _ _)))
      as [[Hz Hc] | [Hpos (n' & nf' & Hc & Hb)]]; rewrite Hc in E; subst r.
    + left. auto.
    + right. split; [reflexivity | ]. eexists. split; [reflexivity | ].
      cbn. split; [reflexivity | lia].
Qed.

Lemma updateRegisters_synthesis_state c m p m' :
  updateRegisters_synthesis c m = Ok p m' -> m' = m.
Proof.
  destruct (updateRegisters_synthesis_cases c m)
    as [[_ ->] | [(_ & _ & ->) | (_ & s & -> & _)]];
    intro H; try discriminate; now apply Ok_inj in H.
Qed.

(** Whatever the synthesis returns has its numerator below its modulus. *)
Lemma N_frac_lt_MOD c m m' s :
  updateRegisters_synthesis c m = Ok (Some s) m' ->
  0 <= N_frac s < MOD s.
Proof.
  destruct (updateRegisters_synthesis_cases c m)
    as [[_ ->] | [(_ & _ & ->) | (_ & s' & -> & _ & Hb)]];
    intro H; try discriminate.
  apply Ok_inj in H as [H _]. now injection H as <-.
Qed.

Lemma updateRegisters_unfold c m :
  updateRegisters c m
  = match updateRegisters_synthesis c m with
    | Ok None m1 => Ok false m1
    | Ok (Some s) m1 =>
        Ok true
          (mkMachine (this m1)
             (bus m1 ++ flat_map (frame (_lePin (this m1))) (words (this m1) s)))
    | Fault e => Fault e
    end.
Proof.
  unfold updateRegisters, bind at 1.
  destruct (updateRegisters_synthesis c m) as [[s | ] m1 | e];
    try reflexivity.
  unfold bind at 1, get_this at 1. apply write_six.
Qed.

Lemma updateRegisters_true c m m' :
  updateRegisters c m = Ok true m' ->
  exists s,
    updateRegisters_synthesis c m = Ok (Some s) m /\
    m' = mkMachine (this m)
           (bus m ++ flat_map (frame (_lePin (this m))) (words (this m) s)).
Proof.
  rewrite updateRegisters_unfold.
  destruct (updateRegisters_synthesis c m) as [[s | ] m1 | e] eqn:Hs;
    try discriminate.
  apply updateRegisters_synthesis_state in Hs as ->.
  intro H. exists s. split; [reflexivity | ].
  apply Ok_inj in H as [_ <-]. reflexivity.
Qed.

Lemma updateRegisters_false c m m' :
  updateRegisters c m = Ok false m' ->
  updateRegisters_synthesis c m = Ok None m /\ m' = m.
Proof.
  rewrite updateRegisters_unfold.
  destruct (updateRegisters_synthesis c m) as [[s | ] m1 | e] eqn:Hs;
    try discriminate.
  apply updateRegisters_synthesis_state in Hs as ->.
  intro H. split; [reflexivity | ].
  apply Ok_inj in H as [_ <-]. reflexivity.
Qed.

(** [setFrequency], by the outcome of its range check. *)
Lemma setFrequency_unfold f c m :
  setFrequency f c m
  = if dlt f (lit 35) || dgt f (lit 4400) then Ok false m
    else updateRegisters c (with_frequency f m).
Proof.
  unfold setFrequency. destruct (_ || _); reflexivity.
Qed.

(** What a successful [setFrequency] leaves: the frequency stored, and the
    six frames of the words of some synthesis appended to the bus. *)
Lemma setFrequency_true f c m m' :
  setFrequency f c m = Ok true m' ->
  dlt f (lit 35) || dgt f (lit 4400) = false /\
  exists s,
    this m' = set_outputFreqMHz f (this m) /\
    bus m' = bus m ++ flat_map (frame (_lePin (this m))) (words (this m') s).
Proof.
  rewrite setFrequency_unfold.
  destruct (_ || _); [discriminate | ].
  intro H. split; [reflexivity | ].
  apply updateRegisters_true in H as (s & _ & ->).
  exists s. split; reflexivity.
Qed.

(** Where the VCO check passes, a [false] from [setFrequency] comes from
    its own range check and leaves the machine as it was. *)
Lemma setFrequency_false f c m m' :
  (dlt f (lit 35) || dgt f (lit 4400) = false -> vco_rejected f = false) ->
  setFrequency f c m = Ok false m' ->
  dlt f (lit 35) || dgt f (lit 4400) = true /\ m' = m.
Proof.
  intro Hv. rewrite setFrequency_unfold.
  destruct (_ || _); intro H.
  - apply Ok_inj in H as [_ <-]. now split.
  - exfalso. apply updateRegisters_false in H as [H _].
    destruct (updateRegisters_synthesis_cases c (with_frequency f m))
      as [[Hr _] | [(_ & _ & E) | (_ & s & E & _)]]; try congruence.
    cbn [with_frequency this _outputFreqMHz set_outputFreqMHz] in Hr.
    rewrite Hv in Hr by reflexivity. discriminate.
Qed.

Lemma failure_isolated_by_vco f c m :
  (dlt f (lit 35) || dgt f (lit 4400) = false -> vco_rejected f = false) ->
  failure_isolated f c m.
Proof.
  intro Hv. split.
  - intro Hout. rewrite setFrequency_unfold.
    destruct Hout as [-> | ->]; [reflexivity | ].
    now rewrite orb_true_r.
  - intros m' H. apply (setFrequency_false _ _ _ _ Hv) in H as [_ ->].
    repeat split; reflexivity.
Qed.

Lemma vco_accepted_by_vco f c m :
  let vcoFreqMHz := dmul f (fst (selectOutputDivider f)) in
  dge vcoFreqMHz (lit 2200) = true -> dle vcoFreqMHz (lit 4400) = true ->
  vco_rejected f = false ->
  dlt f (lit 35) || dgt f (lit 4400) = false ->
  vco_accepted f c m.
Proof.
  intros v Hge Hle Hr Hin. subst v. unfold vco_accepted.
  split; [assumption | ]. split; [assumption | ]. split; [assumption | ].
  split.
  - intros m0 m' Hf.
    assert (Ha : forall m1, updateRegisters_synthesis c m0 <> Ok None m1).
    { intros m1 E.
      destruct (updateRegisters_synthesis_cases c m0)
        as [[Hv _] | [(_ & _ & E') | (_ & s & E' & _)]]; congruence. }
    split; [apply Ha | ].
    intro H. apply updateRegisters_false in H as [H _]. now apply Ha in H.
  - intros m' H.
    apply setFrequency_false in H as [H _]; [congruence | auto].
Qed.

(** C7: a successful [setFrequency] writes six words and no more, register
    5 first and register 0 last, each a 32-bit word whose low three bits are
    the address of its register. *)
Theorem setFrequency_writes_six_words f c m m' :
  setFrequency f c m = Ok true m' ->
  exists r5 r4 r3 r2 r1 r0 t,
    bus m' = bus m ++ t /\
    t = frame (_lePin (this m)) r5 ++ frame (_lePin (this m)) r4 ++
        frame (_lePin (this m)) r3 ++ frame (_lePin (this m)) r2 ++
        frame (_lePin (this m)) r1 ++ frame (_lePin (this m)) r0 /\
    sink_words t = [r5; r4; r3; r2; r1; r0] /\
    Forall (fun w => 0 <= w < 2 ^ 32) [r5; r4; r3; r2; r1; r0] /\
    Z.land r5 7 = 5 /\ Z.land r4 7 = 4 /\ Z.land r3 7 = 3 /\
    Z.land r2 7 = 2 /\ Z.land r1 7 = 1 /\ Z.land r0 7 = 0.
Proof.
  intro H. apply setFrequency_true in H as (_ & s & _ & Hb).
  pose proof (words_addresses (this m') s) as Ha.
  pose proof (words_range (this m') s) as Hr.
  pose proof (sink_words_frames (_lePin (this m)) _ Hr) as Hs.
  remember (words (this m') s) as ws eqn:E.
  unfold words in E.
  destruct ws as [ | r5 [ | r4 [ | r3 [ | r2 [ | r1 [ | r0 [ | ? ?]]]]]]];
    try discriminate.
  exists r5, r4, r3, r2, r1, r0.
  exists (flat_map (frame (_lePin (this m))) [r5; r4; r3; r2; r1; r0]).
  split; [exact Hb | ].
  split; [cbn [flat_map]; now rewrite app_nil_r | ].
  split; [exact Hs | ].
  split; [exact Hr | ].
  cbn [map] in Ha. injection Ha as -> -> -> -> -> ->.
  repeat split; reflexivity.
Qed.

(** C8: after [setFrequency f c] has returned [true], [getFrequency]
    returns [f]; so it does for [f] in [35, 4400] and [c > 0]. *)
Theorem getFrequency_after_setFrequency f c m m' :
  dge f (lit 35) = true -> dle f (lit 4400) = true -> dgt c (lit 0) = true ->
  setFrequency f c m = Ok true m' ->
  getFrequency m' = Ok f m'.
Proof.
  intros _ _ _ H. apply setFrequency_true in H as (_ & s & Ht & _).
  unfold getFrequency, bind, get_this, ret. now rewrite Ht.
Qed.

(** ** Setters *)

(** C9: [setOutputPower] and [setChargePumpCurrent] return on every
    [uint8_t] argument, store the argument capped at 3 and at 15, and so
    leave the setting within 0..3 and 0..15. *)
Theorem setters_clamp (v : Z) m :
  0 <= v <= 255 ->
  (exists m', setOutputPower v m = Ok tt m' /\
              _outputPower (this m') = Z.min v 3 /\
              0 <= _outputPower (this m') <= 3) /\
  (exists m', setChargePumpCurrent v m = Ok tt m' /\
              _chargePumpCurr (this m') = Z.min v 15 /\
              0 <= _chargePumpCurr (this m') <= 15).
Proof.
  intro Hv. split.
  - unfold setOutputPower, modify_this. eexists. split; [reflexivity | ].
    cbn. destruct (Z.gtb_spec v 3); lia.
  - unfold setChargePumpCurrent, modify_this. eexists.
    split; [reflexivity | ].
    cbn. destruct (Z.gtb_spec v 15); lia.
Qed.

End AnyArithmetic.

(** ** Facts of exact arithmetic *)

Section Exact.

Implicit Types (m : machine Q) (f c : Q).

Lemma dle_spec (x y : Q) : reflect (x <= y)%Q (dle x y).
Proof.
  cbn [dle exact]. destruct (Qle_bool x y) eqn:E; constructor.
  - now apply Qle_bool_iff.
  - intro H. apply Qle_bool_iff in H. congruence.
Qed.

Lemma dge_spec (x y : Q) : reflect (y <= x)%Q (dge x y).
Proof. unfold dge. apply dle_spec. Qed.

Lemma dlt_spec (x y : Q) : reflect (x < y)%Q (dlt x y).
Proof.
  cbn [dlt exact]. change (Qle_bool y x) with (dle y x).
  destruct (dle_spec y x) as [H | H]; constructor.
  - now apply Qle_not_lt.
  - now apply Qnot_le_lt.
Qed.

Lemma dgt_spec (x y : Q) : reflect (y < x)%Q (dgt x y).
Proof. unfold dgt. apply dlt_spec. Qed.

(** Comparisons of the goal and of the hypotheses, turned into the order
    of [Q]. *)
Ltac to_order :=
  repeat match goal with
         | H : dge ?x ?y = true |- _ =>
             destruct (dge_spec x y); [clear H | discriminate H]
         | H : dle ?x ?y = true |- _ =>
             destruct (dle_spec x y); [clear H | discriminate H]
         | H : dlt ?x ?y = true |- _ =>
             destruct (dlt_spec x y); [clear H | discriminate H]
         | H : dgt ?x ?y = true |- _ =>
             destruct (dgt_spec x y); [clear H | discriminate H]
         | H : dlt ?x ?y = false |- _ =>
             destruct (dlt_spec x y); [discriminate H | clear H]
         | H : dgt ?x ?y = false |- _ =>
             destruct (dgt_spec x y); [discriminate H | clear H]
         | |- context [dge ?x ?y] => destruct (dge_spec x y)
         | |- context [dle ?x ?y] => destruct (dle_spec x y)
         | |- context [dlt ?x ?y] => destruct (dlt_spec x y)
         | |- context [dgt ?x ?y] => destruct (dgt_spec x y)
         end;
  cbn [lit of_int dmul exact fst snd] in *.

Ltac each_divider H :=
  unfold dividers in H; simpl in H;
  repeat (destruct H as [H | H]; [subst; unfold inject_Z in * | ]);
  try contradiction.

Lemma supported_exact f : supported f <-> (35 <= f <= 4400)%Q.
Proof.
  unfold supported. split.
  - intros [H1 H2]. to_order. split; assumption.
  - intros [H1 H2]. to_order; try lra; try (split; reflexivity).
Qed.

Lemma vco_in_range f :
  (35 <= f)%Q -> (f <= 4400)%Q ->
  (2200 <= f * fst (selectOutputDivider f) <= 4400)%Q.
Proof.
  intros Hlo Hhi. unfold selectOutputDivider.
  to_order; lra.
Qed.

Lemma vco_check_passes f :
  (35 <= f)%Q -> (f <= 4400)%Q -> vco_rejected f = false.
Proof.
  intros Hlo Hhi. unfold vco_rejected. cbv zeta.
  pose proof (vco_in_range f Hlo Hhi) as [H1 H2].
  destruct (dlt_spec (dmul f (fst (selectOutputDivider f))) (lit 2200))
    as [H | _]; [cbn [dmul lit exact] in H; lra | ].
  destruct (dgt_spec (dmul f (fst (selectOutputDivider f))) (lit 4400))
    as [H | _]; [cbn [dmul lit exact] in H; lra | reflexivity].
Qed.

Lemma range_check f :
  dlt f (lit 35) || dgt f (lit 4400) = false <-> (35 <= f <= 4400)%Q.
Proof.
  split.
  - intro H. apply orb_false_elim in H as [H1 H2]. to_order. lra.
  - intros [H1 H2]. to_order; try lra; try reflexivity.
Qed.

Lemma out_of_range_exact f :
  (f < 35)%Q \/ (4400 < f)%Q ->
  dlt f (lit 35) = true \/ dgt f (lit 4400) = true.
Proof.
  intros [H | H]; [left | right]; to_order; try reflexivity; lra.
Qed.

Lemma divider_table_exact f : supported f -> divider_table f.
Proof.
  intro H. apply supported_exact in H as [Hlo Hhi].
  unfold divider_table. cbv zeta. unfold selectOutputDivider.
  repeat match goal with
         | |- context [dge f ?y] => destruct (dge_spec f y)
         end;
    cbn [lit of_int dmul exact fst snd] in *;
    (repeat match goal with |- _ /\ _ => split end);
    try (intros; to_order; first [reflexivity | exfalso; lra | lra]).
  all: try (eexists; split; [ | reflexivity]; unfold dividers; simpl; tauto).
  all: try (intros k Hk Hp; each_divider Hk; to_order; lra).
  all: try (intros; to_order; split; [reflexivity | lra]).
  all: try (intros; to_order; exfalso; lra).
  all: intros; split; [reflexivity | ];
    to_order; first [reflexivity | exfalso; lra].
Qed.

Lemma vco_accepted_exact f c m : supported f -> vco_accepted f c m.
Proof.
  intro H. apply supported_exact in H as [Hlo Hhi].
  pose proof (vco_in_range f Hlo Hhi) as [H1 H2].
  apply vco_accepted_by_vco.
  - destruct (dge_spec (dmul f (fst (selectOutputDivider f))) (lit 2200))
      as [_ | Hn]; [reflexivity | ].
    exfalso. apply Hn. exact H1.
  - destruct (dle_spec (dmul f (fst (selectOutputDivider f))) (lit 4400))
      as [_ | Hn]; [reflexivity | ].
    exfalso. apply Hn. exact H2.
  - now apply vco_check_passes.
  - apply range_check. now split.
Qed.

Lemma failure_isolated_exact f c m : failure_isolated f c m.
Proof.
  apply failure_isolated_by_vco. intro H. apply range_check in H as [Hlo Hhi].
  now apply vco_check_passes.
Qed.

(** ** Modulus *)

Lemma Qfloor_unit (x : Q) : (0 <= x)%Q -> (x < 1)%Q -> Qfloor x = 0.
Proof.
  intros H0 H1.
  pose proof (Qfloor_le x) as Hl. pose proof (Qlt_floor x) as Hu.
  assert (Ha : (inject_Z (Qfloor x) < inject_Z 1)%Q)
    by (apply Qle_lt_trans with x; assumption).
  assert (Hb : (inject_Z 0 < inject_Z (Qfloor x + 1))%Q)
    by (apply Qle_lt_trans with x; assumption).
  rewrite <- Zlt_Qlt in Ha, Hb. lia.
Qed.

(** A channel spacing above twice the phase-detector frequency rounds the
    modulus down to zero. *)
Lemma modulus_zero (pfd c : Q) :
  (0 < pfd)%Q -> (2 * pfd < c)%Q -> modulus pfd c = 0.
Proof.
  intros Hp Hc. unfold modulus. cbn [round ddiv exact].
  unfold round_half_away.
  assert (Hc0 : (0 < c)%Q) by lra.
  assert (Hx0 : (0 < pfd / c)%Q)
    by (apply Qlt_shift_div_l; [assumption | lra]).
  assert (Hx1 : (pfd / c < 1 # 2)%Q)
    by (apply Qlt_shift_div_r; [assumption | lra]).
  destruct (Qle_bool 0 (pfd / c)) eqn:E.
  - rewrite Qfloor_unit by lra. reflexivity.
  - exfalso. apply Qlt_le_weak, Qle_bool_iff in Hx0. congruence.
Qed.

(** A channel spacing above twice the phase-detector frequency: the
    modulus is 0 and [setFrequency] stops on the division by it. *)
Lemma zero_modulus_faults f c m :
  (35 <= f)%Q -> (f <= 4400)%Q ->
  (0 < _pfdFreqMHz (this m))%Q -> (2 * _pfdFreqMHz (this m) < c)%Q ->
  (0 < c)%Q /\
  modulus (_pfdFreqMHz (this m)) c = 0 /\
  (forall n nf, 0 <= nf ->
     carry n nf (modulus (_pfdFreqMHz (this m)) c) m = Fault DivisionByZero) /\
  setFrequency f c m = Fault DivisionByZero.
Proof.
  intros Hlo Hhi Hp Hc.
  pose proof (modulus_zero _ _ Hp Hc) as Hz.
  split; [lra | ]. split; [assumption | ]. split.
  - intros n nf Hnf. rewrite Hz. unfold carry.
    destruct (Z.geb_spec nf 0); [reflexivity | lia].
  - rewrite setFrequency_unfold.
    rewrite (proj2 (range_check f) (conj Hlo Hhi)).
    rewrite updateRegisters_unfold.
    pose proof (vco_check_passes f Hlo Hhi) as Hv.
    destruct (updateRegisters_synthesis_cases c (with_frequency f m))
      as [[Hr _] | [(_ & _ & ->) | (_ & s & _ & Hm & Hb)]].
    + cbn [with_frequency this _outputFreqMHz set_outputFreqMHz] in Hr.
      congruence.
    + reflexivity.
    + exfalso.
      cbn [with_frequency this _pfdFreqMHz set_outputFreqMHz] in Hm.
      rewrite Hz in Hm. lia.
Qed.

End Exact.

(** ** Facts of binary64 *)

Section OnDoubles.

Import Binary64.

Implicit Types (m : machine spec_float) (f c : spec_float).

Local Abbreviation F := (S754_finite false).

Lemma digits2_pos_size (p : positive) : digits2_pos p = Pos.size p.
Proof. induction p as [p IH | p IH | ]; cbn; now rewrite ?IH. Qed.

(** A mantissa of 53 digits. *)
Lemma mantissa_bounds (p : positive) :
  digits2_pos p = 53%positive -> 2 ^ 52 <= Zpos p < 2 ^ 53.
Proof.
  rewrite digits2_pos_size. intro H.
  pose proof (Pos.size_gt p) as Hgt. pose proof (Pos.size_le p) as Hle.
  rewrite H in Hgt, Hle.
  change (2 ^ 53)%positive with 9007199254740992%positive in Hgt, Hle.
  change (2 ^ 52) with 4503599627370496.
  change (2 ^ 53) with 9007199254740992.
  apply Pos2Z.pos_lt_pos in Hgt. apply Pos2Z.pos_le_pos in Hle.
  rewrite Pos2Z.inj_xO in Hle.
  split; [ | exact Hgt].
  apply Z.mul_le_mono_pos_l with 2; [reflexivity | exact Hle].
Qed.

Lemma SFcompare_key (p1 p2 : positive) (e1 e2 : Z) :
  digits2_pos p1 = 53%positive -> digits2_pos p2 = 53%positive ->
  SFcompare (F p1 e1) (F p2 e2) = Some (key p1 e1 ?= key p2 e2).
Proof.
  intros H1 H2. apply mantissa_bounds in H1, H2. unfold key.
  change (2 ^ 52) with 4503599627370496 in *.
  change (2 ^ 53) with 9007199254740992 in *.
  cbn [SFcompare]. f_equal.
  destruct (Z.compare_spec e1 e2) as [-> | Hlt | Hgt].
  - change (Pos.compare_cont Eq p1 p2) with (Zpos p1 ?= Zpos p2).
    now rewrite Z.add_compare_mono_l.
  - symmetry. apply Z.compare_lt_iff. lia.
  - symmetry. apply Z.compare_gt_iff. lia.
Qed.

Lemma SFleb_key (p1 p2 : positive) (e1 e2 : Z) :
  digits2_pos p1 = 53%positive -> digits2_pos p2 = 53%positive ->
  SFleb (F p1 e1) (F p2 e2) = (key p1 e1 <=? key p2 e2).
Proof.
  intros H1 H2. unfold SFleb. rewrite SFcompare_key by assumption.
  unfold Z.leb. now destruct (_ ?= _).
Qed.

Lemma SFltb_key (p1 p2 : positive) (e1 e2 : Z) :
  digits2_pos p1 = 53%positive -> digits2_pos p2 = 53%positive ->
  SFltb (F p1 e1) (F p2 e2) = (key p1 e1 <? key p2 e2).
Proof.
  intros H1 H2. unfold SFltb. rewrite SFcompare_key by assumption.
  unfold Z.ltb. now destruct (_ ?= _).
Qed.

(** The product of a 53-digit double by a power of two is exact. *)
Lemma SFmul_pow2 (p : positive) (e t : Z) :
  digits2_pos p = 53%positive ->
  -1074 <= e + t + 52 <= 971 ->
  SFmul prec emax (F p e) (F 4503599627370496 t) = F p (e + t + 52).
Proof.
  intros Hd He. cbn [SFmul xorb].
  rewrite Pos.mul_comm.
  assert (Hs : (4503599627370496 * p)%positive
               = Pos.iter xO p 52) by reflexivity.
  rewrite Hs. clear Hs.
  unfold binary_round_aux.
  assert (Hd2 : Zdigits2 (Zpos (Pos.iter xO p 52)) = 105).
  { cbn [Zdigits2]. cbn [Pos.iter digits2_pos]. rewrite Hd. reflexivity. }
  unfold shr_fexp at 1. rewrite Hd2.
  replace (fexp prec emax (105 + (e + t)) - (e + t)) with 52
    by (unfold fexp, emin, prec, emax; lia).
  cbn [shr_record_of_loc shr].
  assert (Hi : iter_pos shr_1 52
                 {| shr_m := Zpos (Pos.iter xO p 52);
                    shr_r := false; shr_s := false |}
               = {| shr_m := Zpos p; shr_r := false; shr_s := false |})
    by reflexivity.
  rewrite Hi. cbn [shr_m loc_of_shr_record round_nearest_even].
  unfold shr_fexp. cbn [Zdigits2]. rewrite Hd.
  replace (fexp prec emax (53 + (e + t + 52)) - (e + t + 52)) with 0
    by (unfold fexp, emin, prec, emax; lia).
  cbn [shr_record_of_loc shr shr_m].
  replace (e + t + 52 <=? emax - prec) with true
    by (symmetry; apply Z.leb_le; unfold emax, prec; lia).
  reflexivity.
Qed.

(** The literals of the source, as doubles. *)
Lemma literals :
  (lit 2200 : spec_float) = F 4837851162214400 (-41) /\
  (lit 1100 : spec_float) = F 4837851162214400 (-42) /\
  (lit 550 : spec_float) = F 4837851162214400 (-43) /\
  (lit 275 : spec_float) = F 4837851162214400 (-44) /\
  (lit 137.5 : spec_float) = F 4837851162214400 (-45) /\
  (lit 68.75 : spec_float) = F 4837851162214400 (-46) /\
  (lit 4400 : spec_float) = F 4837851162214400 (-40) /\
  (lit 35 : spec_float) = F 4925812092436480 (-47).
Proof. repeat split; vm_compute; reflexivity. Qed.

Lemma SFltb_exponent (p q : positive) (e t : Z) :
  SFltb (F p e) (F q t) = false -> t <= e.
Proof.
  unfold SFltb. cbn [SFcompare].
  destruct (Z.compare_spec e t); [lia | discriminate | lia].
Qed.

Lemma canonical_digits (p : positive) (e : Z) :
  valid_binary prec emax (F p e) = true -> -1074 < e ->
  digits2_pos p = 53%positive.
Proof.
  cbn [valid_binary]. unfold bounded. intros Hv He.
  apply andb_prop in Hv as [Hc _]. unfold canonical_mantissa in Hc.
  apply Z.eqb_eq in Hc. unfold fexp, emin, prec, emax in Hc. lia.
Qed.

(** A double between 35.0 and 4400.0 is a normal number with an exponent
    from -47 to -40; the range check of [setFrequency] also lets NaN
    through. *)
Lemma supported_shape f :
  valid_binary prec emax f = true ->
  dlt f (lit 35) = false -> dgt f (lit 4400) = false ->
  f = S754_nan \/
  exists p e, f = F p e /\ digits2_pos p = 53%positive /\ -47 <= e <= -40 /\
              key 4925812092436480 (-47) <= key p e /\
              key p e <= key 4837851162214400 (-40).
Proof.
  intros Hv Hlo Hhi.
  destruct literals as (_ & _ & _ & _ & _ & _ & E4400 & E35).
  unfold dgt in Hhi. rewrite E35 in Hlo. rewrite E4400 in Hhi.
  cbn [dlt binary64] in Hlo, Hhi.
  destruct f as [s | s | | s p e].
  - exfalso. unfold SFltb in Hlo. cbn [SFcompare] in Hlo. discriminate.
  - exfalso. unfold SFltb in Hlo, Hhi. cbn [SFcompare] in Hlo, Hhi.
    destruct s; discriminate.
  - now left.
  - right. destruct s.
    + exfalso. unfold SFltb in Hlo. cbn [SFcompare] in Hlo. discriminate.
    + pose proof (SFltb_exponent _ _ _ _ Hlo) as He1.
      pose proof (SFltb_exponent _ _ _ _ Hhi) as He2.
      assert (Hd : digits2_pos p = 53%positive)
        by (apply (canonical_digits p e Hv); lia).
      rewrite SFltb_key in Hlo, Hhi by (exact Hd || reflexivity).
      apply Z.ltb_ge in Hlo, Hhi.
      exists p, e. repeat split; assumption || lia.
Qed.

Lemma dividers_as_doubles :
  (lit 1 : spec_float) = F 4503599627370496 (-52) /\
  (lit 2 : spec_float) = F 4503599627370496 (-51) /\
  (lit 4 : spec_float) = F 4503599627370496 (-50) /\
  (lit 8 : spec_float) = F 4503599627370496 (-49) /\
  (lit 16 : spec_float) = F 4503599627370496 (-48) /\
  (lit 32 : spec_float) = F 4503599627370496 (-47) /\
  (lit 64 : spec_float) = F 4503599627370496 (-46).
Proof. repeat split; vm_compute; reflexivity. Qed.

(** [selectOutputDivider] on a normal number, by its key. *)
Lemma selectOutputDivider_key (p : positive) (e : Z) :
  digits2_pos p = 53%positive ->
  selectOutputDivider (F p e)
  = if key 4837851162214400 (-41) <=? key p e then (lit 1, 0)
    else if key 4837851162214400 (-42) <=? key p e then (lit 2, 1)
    else if key 4837851162214400 (-43) <=? key p e then (lit 4, 2)
    else if key 4837851162214400 (-44) <=? key p e then (lit 8, 3)
    else if key 4837851162214400 (-45) <=? key p e then (lit 16, 4)
    else if key 4837851162214400 (-46) <=? key p e then (lit 32, 5)
    else (lit 64, 6).
Proof.
  intro Hd.
  destruct literals as (E1 & E2 & E3 & E4 & E5 & E6 & _ & _).
  unfold selectOutputDivider, dge.
  rewrite E1, E2, E3, E4, E5, E6. cbn [dle binary64].
  rewrite !SFleb_key by (assumption || reflexivity).
  reflexivity.
Qed.

(** The divider chosen for a supported normal number: a power of two
    [2^j], the product exact and between 2200 and 4400, below 4400 unless
    [j = 0], and [2^(j-1)] not enough. *)
Lemma divider_product (p : positive) (e : Z) :
  digits2_pos p = 53%positive -> -47 <= e <= -40 ->
  key 4925812092436480 (-47) <= key p e ->
  key p e <= key 4837851162214400 (-40) ->
  exists j,
    0 <= j <= 6 /\
    selectOutputDivider (F p e) = (F 4503599627370496 (j - 52), j) /\
    dmul (F p e) (F 4503599627370496 (j - 52)) = F p (e + j) /\
    key 4837851162214400 (-41 - j) <= key p e /\
    (0 < j -> key p e < key 4837851162214400 (-40 - j)).
Proof.
  intros Hd He Hlo Hhi. rewrite selectOutputDivider_key by assumption.
  destruct dividers_as_doubles as (D0 & D1 & D2 & D3 & D4 & D5 & D6).
  rewrite D0, D1, D2, D3, D4, D5, D6.
  assert (Hm : forall j, 0 <= j <= 6 ->
               dmul (F p e) (F 4503599627370496 (j - 52)) = F p (e + j)).
  { intros j Hj. cbn [dmul binary64]. rewrite SFmul_pow2 by (assumption || lia).
    f_equal. lia. }
  unfold key in *. change (2 ^ 53) with 9007199254740992 in *.
  repeat match goal with
         | |- context [?a <=? ?b] => destruct (Z.leb_spec a b)
         end.
  - exists 0. repeat split; try (apply Hm); lia.
  - exists 1. repeat split; try (apply Hm); lia.
  - exists 2. repeat split; try (apply Hm); lia.
  - exists 3. repeat split; try (apply Hm); lia.
  - exists 4. repeat split; try (apply Hm); lia.
  - exists 5. repeat split; try (apply Hm); lia.
  - exists 6. repeat split; try (apply Hm); lia.
Qed.

(** The VCO check passes wherever the range check of [setFrequency] does,
    NaN included. *)
Lemma vco_check_passes_binary64 f :
  valid_binary prec emax f = true ->
  dlt f (lit 35) || dgt f (lit 4400) = false -> vco_rejected f = false.
Proof.
  intros Hv H. apply orb_false_elim in H as [Hlo Hhi].
  destruct (supported_shape f Hv Hlo Hhi)
    as [-> | (p & e & -> & Hd & He & K1 & K2)]; [reflexivity | ].
  destruct (divider_product p e Hd He K1 K2)
    as (j & Hj & Es & Em & Kj & Kl).
  unfold vco_rejected. cbv zeta. rewrite Es. cbn [fst]. rewrite Em.
  destruct literals as (E2200 & _ & _ & _ & _ & _ & E4400 & _).
  unfold dgt. rewrite E2200, E4400. cbn [dlt binary64].
  rewrite !SFltb_key by (assumption || reflexivity).
  unfold key in *. change (2 ^ 53) with 9007199254740992 in *.
  apply orb_false_intro; apply Z.ltb_ge; lia.
Qed.

Lemma SFcompare_antisym (a b : spec_float) :
  SFcompare b a = option_map CompOpp (SFcompare a b).
Proof.
  destruct a as [[] | [] | | [] pa ea], b as [[] | [] | | [] pb eb];
    cbn [SFcompare option_map CompOpp]; try reflexivity;
    rewrite (Z.compare_antisym ea eb);
    destruct (ea ?= eb); cbn [CompOpp]; try reflexivity;
    change (Pos.compare_cont Eq pb pa)
      with (Pos.compare_cont (CompOpp Eq) pb pa);
    rewrite <- (Pos.compare_cont_antisym pa pb Eq);
    rewrite ?CompOpp_involutive; reflexivity.
Qed.

Lemma SFleb_SFltb (a b : spec_float) : SFleb a b = true -> SFltb b a = false.
Proof.
  unfold SFleb, SFltb. rewrite (SFcompare_antisym a b).
  destruct (SFcompare a b) as [[] | ]; cbn; congruence.
Qed.

Lemma supported_range_check f :
  supported f -> dlt f (lit 35) || dgt f (lit 4400) = false.
Proof.
  intros [H1 H2]. unfold dge, dgt in *. cbn [dle dlt binary64] in *.
  apply orb_false_intro; now apply SFleb_SFltb.
Qed.

(** Comparisons with the literals, as comparisons of keys. *)
Ltac to_keys Hd :=
  destruct literals as (E2200 & E1100 & E550 & E275 & E137 & E68 & E4400 & E35);
  unfold dge, dgt in *;
  rewrite ?E2200, ?E1100, ?E550, ?E275, ?E137, ?E68, ?E4400, ?E35 in *;
  cbn [dle dlt binary64] in *;
  rewrite ?SFleb_key, ?SFltb_key in * by (exact Hd || reflexivity);
  clear E2200 E1100 E550 E275 E137 E68 E4400 E35.

Lemma vco_accepted_binary64 f c m :
  valid_binary prec emax f = true -> supported f -> vco_accepted f c m.
Proof.
  intros Hv Hs. pose proof (supported_range_check f Hs) as Hr.
  pose proof (vco_check_passes_binary64 f Hv Hr) as Hp.
  apply vco_accepted_by_vco; try assumption.
  - apply orb_false_elim in Hr as [Hlo Hhi].
    destruct (supported_shape f Hv Hlo Hhi)
      as [-> | (p & e & -> & Hd & He & K1 & K2)];
      [destruct Hs; discriminate | ].
    destruct (divider_product p e Hd He K1 K2)
      as (j & Hj & Es & Em & Kj & Kl).
    rewrite Es. cbn [fst]. rewrite Em. to_keys Hd.
    apply Z.leb_le. unfold key in *.
    change (2 ^ 53) with 9007199254740992 in *. lia.
  - apply orb_false_elim in Hr as [Hlo Hhi].
    destruct (supported_shape f Hv Hlo Hhi)
      as [-> | (p & e & -> & Hd & He & K1 & K2)];
      [destruct Hs; discriminate | ].
    destruct (divider_product p e Hd He K1 K2)
      as (j & Hj & Es & Em & Kj & Kl).
    rewrite Es. cbn [fst]. rewrite Em. to_keys Hd.
    apply Z.leb_le. unfold key in *.
    change (2 ^ 53) with 9007199254740992 in *. lia.
Qed.

Lemma failure_isolated_binary64 f c m :
  valid_binary prec emax f = true -> failure_isolated f c m.
Proof.
  intro Hv. apply failure_isolated_by_vco.
  now apply vco_check_passes_binary64.
Qed.

Lemma divider_table_binary64 f :
  valid_binary prec emax f = true -> supported f -> divider_table f.
Proof.
  intros Hv Hs. pose proof (supported_range_check f Hs) as Hr.
  apply orb_false_elim in Hr as [Hlo Hhi].
  destruct (supported_shape f Hv Hlo Hhi)
    as [-> | (p & e & -> & Hd & He & K1 & K2)];
    [destruct Hs; discriminate | ].
  clear Hs Hlo Hhi Hv.
  destruct (divider_product p e Hd He K1 K2) as (j & Hj & Es & Em & Kj & Kl).
  assert (Hm : forall i, 0 <= i <= 6 ->
               dmul (F p e) (F 4503599627370496 (i - 52)) = F p (e + i)).
  { intros i Hi. cbn [dmul binary64].
    rewrite SFmul_pow2 by (assumption || lia). f_equal. lia. }
  destruct dividers_as_doubles as (D0 & D1 & D2 & D3 & D4 & D5 & D6).
  unfold divider_table. cbv zeta.
  assert (Ed : fst (selectOutputDivider (F p e)) = F 4503599627370496 (j - 52))
    by (rewrite Es; reflexivity).
  rewrite Ed. rewrite Em. clear Es Ed.
  rewrite selectOutputDivider_key by assumption.
  rewrite D0, D1, D2, D3, D4, D5, D6.
  repeat match goal with |- _ /\ _ => split end.
  1-7: intros; to_keys Hd; unfold key in *;
    change (2 ^ 53) with 9007199254740992 in *;
    repeat match goal with
           | H : (_ <=? _) = true |- _ => apply Z.leb_le in H
           | H : (_ <? _) = true |- _ => apply Z.ltb_lt in H
           | |- context [?a <=? ?b] => destruct (Z.leb_spec a b)
           end; first [reflexivity | exfalso; lia].
  - assert (Hc : j = 0 \/ j = 1 \/ j = 2 \/ j = 3 \/ j = 4 \/ j = 5 \/ j = 6)
      by lia.
    unfold dividers.
    destruct Hc as [-> | [-> | [-> | [-> | [-> | [-> | ->]]]]]];
      [exists 1 | exists 2 | exists 4 | exists 8 | exists 16 | exists 32
      | exists 64]; (split; [simpl; tauto | vm_compute; reflexivity]).
  - to_keys Hd. apply Z.leb_le. unfold key in *.
    change (2 ^ 53) with 9007199254740992 in *. lia.
  - intros k Hin Hge. unfold dividers in Hin. simpl in Hin.
    assert (Hi : exists i, 0 <= i <= 6 /\
                           of_int k = F 4503599627370496 (i - 52)).
    { destruct Hin as [<- | [<- | [<- | [<- | [<- | [<- | [<- | []]]]]]]];
        [exists 0 | exists 1 | exists 2 | exists 3 | exists 4 | exists 5
        | exists 6]; (split; [lia | vm_compute; reflexivity]). }
    destruct Hi as (i & Hi & Ei). rewrite Ei in *. rewrite Hm in Hge by assumption.
    to_keys Hd. apply Z.leb_le in Hge. apply Z.leb_le. unfold key in *.
    change (2 ^ 53) with 9007199254740992 in *. lia.
  - intro Hlt. to_keys Hd. apply Z.ltb_lt in Hlt. apply Z.ltb_lt.
    unfold key in *. change (2 ^ 53) with 9007199254740992 in *. lia.
  - intro Hge. to_keys Hd. apply Z.leb_le in Hge.
    assert (j = 0) as ->
      by (unfold key in *; change (2 ^ 53) with 9007199254740992 in *; lia).
    split; [reflexivity | ].
    apply Z.leb_le. unfold key in *.
    change (2 ^ 53) with 9007199254740992 in *. lia.
Qed.

End OnDoubles.

(** * The divider and the VCO check, in both arithmetics *)

(** C3: on [35, 4400] MHz the divider and select code follow the breakpoint
    table, the divider is the smallest of 1, 2, ..., 64 that brings the
    product to 2200 MHz or more, and the product stays below 4400 MHz unless
    the frequency is 4400 MHz itself, where the divider is 1.  So it is in
    exact arithmetic and on doubles. *)
Theorem selectOutputDivider_table :
  (forall f : Q, (35 <= f <= 4400)%Q -> divider_table f) /\
  (forall f : spec_float,
      Binary64.valid f -> supported f -> divider_table f).
Proof.
  split.
  - intros f H. apply divider_table_exact. now apply supported_exact.
  - exact divider_table_binary64.
Qed.

(** C4: for a frequency of [35, 4400] MHz the VCO frequency that
    [updateRegisters] checks lies in [2200, 4400] MHz, its rejection branch
    is not taken, and [setFrequency] does not return [false].  So it is in
    exact arithmetic and on doubles. *)
Theorem vco_rejection_unreachable :
  (forall (f c : Q) (m : machine Q),
      (35 <= f <= 4400)%Q ->
      (2200 <= f * fst (selectOutputDivider f) <= 4400)%Q /\
      vco_accepted f c m) /\
  (forall (f c : spec_float) (m : machine spec_float),
      Binary64.valid f -> supported f -> vco_accepted f c m).
Proof.
  split.
  - intros f c m H. split.
    + now apply vco_in_range.
    + apply vco_accepted_exact. now apply supported_exact.
  - exact vco_accepted_binary64.
Qed.

(** C2: a call of [setFrequency] that returns [false] leaves the machine as
    it was: [getFrequency] answers as before and nothing has gone over the
    bus, so no word has reached the sink.  Frequencies below 35 MHz or above
    4400 MHz are such calls.  So it is in exact arithmetic and on doubles,
    NaN and the infinities included. *)
Theorem setFrequency_failure_isolated :
  (forall (f c : Q) (m : machine Q),
      ((f < 35)%Q \/ (4400 < f)%Q -> setFrequency f c m = Ok false m) /\
      failure_isolated f c m) /\
  (forall (f c : spec_float) (m : machine spec_float),
      Binary64.valid f -> failure_isolated f c m).
Proof.
  split.
  - intros f c m.
    pose proof (failure_isolated_exact f c m) as H. split; [ | exact H].
    intro Hout. apply (proj1 H). now apply out_of_range_exact.
  - exact failure_isolated_binary64.
Qed.

(** C10: the division of the carry correction can run with MOD = 0.  For a
    frequency of the supported range, a positive phase-detector frequency
    and a channel spacing above twice that frequency, the modulus is 0 and
    [setFrequency] stops on the division by it; on doubles so it is for
    [setFrequency(2400.0, 60.0)] at 25 MHz. *)
Theorem carry_divides_by_zero_modulus :
  (forall (f c : Q) (m : machine Q),
      (35 <= f)%Q -> (f <= 4400)%Q ->
      (0 < _pfdFreqMHz (this m))%Q -> (2 * _pfdFreqMHz (this m) < c)%Q ->
      (0 < c)%Q /\
      modulus (_pfdFreqMHz (this m)) c = 0 /\
      (forall n nf, 0 <= nf ->
         carry n nf (modulus (_pfdFreqMHz (this m)) c) m
         = Fault DivisionByZero) /\
      setFrequency f c m = Fault DivisionByZero) /\
  (forall lePin,
      let m : machine spec_float := power_on lePin in
      supported (lit 2400 : spec_float) /\
      dgt (lit 60 : spec_float) (lit 0) = true /\
      dgt (_pfdFreqMHz (this m)) (lit 0) = true /\
      modulus (_pfdFreqMHz (this m)) (lit 60) = 0 /\
      (forall n nf, 0 <= nf ->
         carry n nf (modulus (_pfdFreqMHz (this m)) (lit 60)) m
         = Fault DivisionByZero) /\
      setFrequency (lit 2400) (lit 60) m = Fault DivisionByZero).
Proof.
  split.
  - exact zero_modulus_faults.
  - intro lePin. cbv zeta.
    assert (Hz : modulus (_pfdFreqMHz (this (power_on lePin)))
                   (lit 60 : spec_float) = 0) by (vm_compute; reflexivity).
    split; [split; vm_compute; reflexivity | ].
    split; [vm_compute; reflexivity | ].
    split; [vm_compute; reflexivity | ].
    split; [exact Hz | ].
    split; [ | vm_compute; reflexivity].
    intros n nf Hnf. rewrite Hz. unfold carry.
    destruct (Z.geb_spec nf 0); [reflexivity | lia].
Qed.

(** * Concrete runs, in both arithmetics *)

Lemma scenario_1000_exact (m : machine Q) : scenario_1000 m.
Proof.
  destruct m as [[lePin rf fo pfd rc rd r2 op en cp] b].
  set (s := mkSynthesis 4%Q 2 4000%Q 160 2500 0 1 1 1 1 200).
  set (o1 := mkADF4351 lePin 25%Q fo 25%Q 1 0 0 op en cp).
  set (o2 := mkADF4351 lePin 25%Q 1000%Q 25%Q 1 0 0 op en cp).
  exists (mkMachine o1 b).
  exists (mkMachine o2 (b ++ flat_map (frame lePin) (words o2 s))).
  exists s.
  split; [reflexivity | ].
  split; [reflexivity | ].
  split; [reflexivity | ].
  split; [reflexivity | ].
  split; [reflexivity | ].
  split; [reflexivity | ].
  split; [reflexivity | ].
  split.
  { rewrite setFrequency_unfold, updateRegisters_unfold.
    change (dlt (lit 1000) (lit 35) || dgt (lit 1000) (lit 4400)) with false.
    change (updateRegisters_synthesis (lit 0.01)
              (with_frequency (lit 1000) (mkMachine o1 b)))
      with (Ok (Some s) (mkMachine o2 b)).
    reflexivity. }
  split; [reflexivity | ].
  cbn [this bus _lePin].
  rewrite sink_words_frames by apply words_range.
  reflexivity.
Qed.

Lemma scenario_1000_binary64 (m : machine spec_float) : scenario_1000 m.
Proof.
  destruct m as [[lePin rf fo pfd rc rd r2 op en cp] b].
  set (s := mkSynthesis (lit 4) 2 (lit 4000) 160 2500 0 1 1 1 1 200).
  set (o1 := mkADF4351 lePin (lit 25) fo (lit 25) 1 0 0 op en cp).
  set (o2 := mkADF4351 lePin (lit 25) (lit 1000) (lit 25) 1 0 0 op en cp).
  exists (mkMachine o1 b).
  exists (mkMachine o2 (b ++ flat_map (frame lePin) (words o2 s))).
  exists s.
  split; [vm_compute; reflexivity | ].
  split; [reflexivity | ].
  split; [vm_compute; reflexivity | ].
  split; [vm_compute; reflexivity | ].
  split; [reflexivity | ].
  split; [reflexivity | ].
  split; [reflexivity | ].
  split.
  { rewrite setFrequency_unfold, updateRegisters_unfold.
    replace (dlt (lit 1000) (lit 35) || dgt (lit 1000) (lit 4400))
      with false by (vm_compute; reflexivity).
    replace (updateRegisters_synthesis (lit 0.01)
               (with_frequency (lit 1000) (mkMachine o1 b)))
      with (Ok (Some s) (mkMachine o2 b)) by (vm_compute; reflexivity).
    reflexivity. }
  split; [reflexivity | ].
  cbn [this bus _lePin].
  rewrite sink_words_frames by apply words_range.
  vm_compute. reflexivity.
Qed.

(** C6: with a 25 MHz reference, R counter 1, no doubler and no divide-by-2,
    the phase detector runs at 25 MHz, and [setFrequency(1000.0, 0.01)]
    selects divider 4 with select code 2, finds the VCO at 4000 MHz,
    N_int = 160, MOD = 2500, N_frac = 0, prescaler 1, both lock-detect flags
    1, and writes 5242880 = (160<<15)|(0<<3)|0 as register 0, the last word
    of the run.  So it is in exact arithmetic and on doubles. *)
Theorem scenario_1000_MHz :
  (forall m : machine Q, scenario_1000 m) /\
  (forall m : machine spec_float, scenario_1000 m).
Proof.
  split; [exact scenario_1000_exact | exact scenario_1000_binary64].
Qed.

(** C1: the bound N_frac < MOD does not hold on every valid input.  With the
    phase detector at 25 MHz, the call [setFrequency(1000.0, 100.0)] has its
    frequency in range and a positive channel spacing; the modulus rounds to
    0, the carry test [N_frac >= MOD] succeeds and the run stops on the
    division by the modulus, so no numerator below the modulus is
    produced.  So it is in exact arithmetic and on doubles. *)
Theorem N_frac_bound_lost_on_zero_modulus (lePin : Z) :
  (let m : machine Q := power_on lePin in
   (35 <= 1000 <= 4400)%Q /\ (0 < 100)%Q /\ (0 < _pfdFreqMHz (this m))%Q /\
   modulus (_pfdFreqMHz (this m)) 100%Q = 0 /\
   updateRegisters_synthesis 100%Q (with_frequency 1000%Q m)
   = Fault DivisionByZero /\
   setFrequency 1000%Q 100%Q m = Fault DivisionByZero /\
   ~ exists s m', updateRegisters_synthesis 100%Q (with_frequency 1000%Q m)
                  = Ok (Some s) m' /\ N_frac s < MOD s) /\
  (let m : machine spec_float := power_on lePin in
   _pfdFreqMHz (this m) = lit 25 /\
   modulus (_pfdFreqMHz (this m)) (lit 100) = 0 /\
   updateRegisters_synthesis (lit 100) (with_frequency (lit 1000) m)
   = Fault DivisionByZero /\
   setFrequency (lit 1000) (lit 100) m = Fault DivisionByZero).
Proof.
  split; cbv zeta.
  - assert (H : updateRegisters_synthesis 100%Q
                  (with_frequency 1000%Q (power_on lePin))
                = Fault DivisionByZero) by reflexivity.
    repeat split; try reflexivity; try discriminate.
    intros (s & m' & Hs & _). rewrite H in Hs. discriminate.
  - repeat split; vm_compute; reflexivity.
Qed.

(** C5: the modulus is not always [min(round(pfd / c), 4095)].  With the
    phase detector at 25 MHz and a channel spacing of 0.000375 MHz the ratio
    rounds to 66667, which the clamp should bring to 4095; the conversion to
    [uint16_t] comes first, leaves 1131, and the clamp no longer applies.
    So it is in exact arithmetic and on doubles. *)
Theorem modulus_narrowed_before_clamp :
  ((0 < 25)%Q /\ (0 < 0.000375)%Q /\
   round (25 / 0.000375)%Q = 66667 /\
   Z.min (round (25 / 0.000375)%Q) 4095 = 4095 /\
   modulus 25%Q 0.000375%Q = 1131) /\
  (round (ddiv (lit 25) (lit 0.000375) : spec_float) = 66667 /\
   modulus (lit 25 : spec_float) (lit 0.000375) = 1131) /\
  forall lePin, exists (s : synthesis spec_float) m',
    updateRegisters_synthesis (lit 0.000375)
      (with_frequency (lit 1000) (power_on lePin)) = Ok (Some s) m' /\
    MOD s = 1131.
Proof.
  split; [repeat split; reflexivity | ].
  split; [split; vm_compute; reflexivity | ].
  intro lePin. eexists. eexists. split; vm_compute; reflexivity.
Qed.

(** * Instances of the theorems *)

Lemma tuned_1000_run :
  setFrequency 1000%Q 0.01%Q (power_on 10) = Ok true tuned_1000.
Proof. vm_compute. reflexivity. Qed.

Lemma tuned_1000_binary64_run :
  setFrequency (lit 1000) (lit 0.01) (power_on 10)
  = Ok true tuned_1000_binary64.
Proof. vm_compute. reflexivity. Qed.

Lemma selectOutputDivider_table_witness :
  Binary64.valid (lit 1000) /\ supported (lit 1000 : spec_float) /\
  selectOutputDivider (lit 1000 : spec_float) = (lit 4, 2) /\
  dge (dmul (lit 1000 : spec_float) (lit 4)) (lit 2200) = true /\
  dlt (dmul (lit 1000 : spec_float) (lit 4)) (lit 4400) = true.
Proof.
  assert (Hv : Binary64.valid (lit 1000)) by (vm_compute; reflexivity).
  assert (Hs : supported (lit 1000 : spec_float))
    by (split; vm_compute; reflexivity).
  pose proof (proj2 selectOutputDivider_table (lit 1000) Hv Hs) as H.
  unfold divider_table in H. cbv zeta in H.
  destruct H as (_ & _ & H3 & _ & _ & _ & _ & _ & Hge & _ & Hlt & _).
  assert (E : selectOutputDivider (lit 1000 : spec_float) = (lit 4, 2))
    by (apply H3; vm_compute; reflexivity).
  rewrite E in Hge, Hlt. cbn [fst] in Hge, Hlt.
  split; [exact Hv | ]. split; [exact Hs | ]. split; [exact E | ].
  split; [exact Hge | ]. apply Hlt. vm_compute. reflexivity.
Defined.

Lemma setFrequency_failure_isolated_witness :
  Binary64.valid (lit 34.99) /\
  (dlt (lit 34.99 : spec_float) (lit 35) = true \/
   dgt (lit 34.99 : spec_float) (lit 4400) = true) /\
  setFrequency (lit 34.99) (lit 0.01) tuned_1000_binary64
  = Ok false tuned_1000_binary64 /\
  getFrequency tuned_1000_binary64 = Ok (lit 1000) tuned_1000_binary64 /\
  sink_words (bus tuned_1000_binary64) = sink_words (bus tuned_1000_binary64).
Proof.
  assert (Hv : Binary64.valid (lit 34.99)) by (vm_compute; reflexivity).
  assert (Hout : dlt (lit 34.99 : spec_float) (lit 35) = true \/
                 dgt (lit 34.99 : spec_float) (lit 4400) = true)
    by (left; vm_compute; reflexivity).
  destruct (proj2 setFrequency_failure_isolated (lit 34.99) (lit 0.01)
              tuned_1000_binary64 Hv) as [Hr Hk].
  pose proof (Hr Hout) as Hf.
  destruct (Hk tuned_1000_binary64 Hf) as (_ & _ & _ & Hs).
  split; [exact Hv | ]. split; [exact Hout | ]. split; [exact Hf | ].
  split; [reflexivity | exact Hs].
Defined.

Lemma vco_rejection_unreachable_witness :
  Binary64.valid (lit 35) /\ supported (lit 35 : spec_float) /\
  vco_rejected (lit 35 : spec_float) = false /\
  forall m', setFrequency (lit 35) (lit 0.01) (power_on 10)
             <> Ok false (m' : machine spec_float).
Proof.
  assert (Hv : Binary64.valid (lit 35)) by (vm_compute; reflexivity).
  assert (Hs : supported (lit 35 : spec_float))
    by (split; vm_compute; reflexivity).
  pose proof (proj2 vco_rejection_unreachable (lit 35) (lit 0.01)
                (power_on 10) Hv Hs) as H.
  unfold vco_accepted in H. cbv zeta in H.
  destruct H as (_ & _ & Hr & _ & Hn).
  split; [exact Hv | ]. split; [exact Hs | ].
  split; [exact Hr | exact Hn].
Defined.

Lemma setFrequency_writes_six_words_witness :
  setFrequency (lit 1000) (lit 0.01) (power_on 10)
  = Ok true tuned_1000_binary64 /\
  exists r5 r4 r3 r2 r1 r0 t,
    bus tuned_1000_binary64 = bus (power_on 10) ++ t /\
    t = frame 10 r5 ++ frame 10 r4 ++ frame 10 r3 ++ frame 10 r2 ++
        frame 10 r1 ++ frame 10 r0 /\
    sink_words t = [r5; r4; r3; r2; r1; r0] /\
    Forall (fun w => 0 <= w < 2 ^ 32) [r5; r4; r3; r2; r1; r0] /\
    Z.land r5 7 = 5 /\ Z.land r4 7 = 4 /\ Z.land r3 7 = 3 /\
    Z.land r2 7 = 2 /\ Z.land r1 7 = 1 /\ Z.land r0 7 = 0.
Proof.
  split; [exact tuned_1000_binary64_run | ].
  exact (setFrequency_writes_six_words (lit 1000) (lit 0.01) (power_on 10)
           tuned_1000_binary64 tuned_1000_binary64_run).
Defined.

Lemma getFrequency_after_setFrequency_witness :
  dge (lit 1000 : spec_float) (lit 35) = true /\
  dle (lit 1000 : spec_float) (lit 4400) = true /\
  dgt (lit 0.01 : spec_float) (lit 0) = true /\
  setFrequency (lit 1000) (lit 0.01) (power_on 10)
  = Ok true tuned_1000_binary64 /\
  getFrequency tuned_1000_binary64 = Ok (lit 1000) tuned_1000_binary64.
Proof.
  assert (Hlo : dge (lit 1000 : spec_float) (lit 35) = true)
    by (vm_compute; reflexivity).
  assert (Hhi : dle (lit 1000 : spec_float) (lit 4400) = true)
    by (vm_compute; reflexivity).
  assert (Hc : dgt (lit 0.01 : spec_float) (lit 0) = true)
    by (vm_compute; reflexivity).
  split; [exact Hlo | ]. split; [exact Hhi | ]. split; [exact Hc | ].
  split; [exact tuned_1000_binary64_run | ].
  exact (getFrequency_after_setFrequency (lit 1000) (lit 0.01) (power_on 10)
           tuned_1000_binary64 Hlo Hhi Hc tuned_1000_binary64_run).
Defined.

Lemma setters_clamp_witness :
  0 <= 200 <= 255 /\
  (exists m' : machine spec_float,
      setOutputPower 200 (power_on 10) = Ok tt m' /\
      _outputPower (this m') = Z.min 200 3 /\
      0 <= _outputPower (this m') <= 3) /\
  (exists m' : machine spec_float,
      setChargePumpCurrent 200 (power_on 10) = Ok tt m' /\
      _chargePumpCurr (this m') = Z.min 200 15 /\
      0 <= _chargePumpCurr (this m') <= 15).
Proof.
  assert (Hv : 0 <= 200 <= 255) by lia.
  split; [exact Hv | ].
  exact (setters_clamp 200 (power_on 10) Hv).
Defined.

Lemma carry_divides_by_zero_modulus_witness :
  (35 <= 1000)%Q /\ (1000 <= 4400)%Q /\
  (0 < _pfdFreqMHz (this (power_on 10)))%Q /\
  (2 * _pfdFreqMHz (this (power_on 10)) < 100)%Q /\
  modulus (_pfdFreqMHz (this (power_on 10))) 100%Q = 0 /\
  setFrequency 1000%Q 100%Q (power_on 10) = Fault DivisionByZero.
Proof.
  assert (Hlo : (35 <= 1000)%Q) by lra.
  assert (Hhi : (1000 <= 4400)%Q) by lra.
  assert (Hp : (0 < _pfdFreqMHz (this (power_on 10)))%Q) by reflexivity.
  assert (Hc : (2 * _pfdFreqMHz (this (power_on 10)) < 100)%Q) by reflexivity.
  destruct (proj1 carry_divides_by_zero_modulus 1000%Q 100%Q (power_on 10)
              Hlo Hhi Hp Hc) as (_ & Hz & _ & Hf).
  repeat (split; [assumption | ]). exact Hf.
Defined.

(** * Further properties *)

(** ** Fields of register words *)

Lemma field_lor (x y off width : Z) :
  field (Z.lor x y) off width = Z.lor (field x off width) (field y off width).
Proof. unfold field. now rewrite Z.shiftr_lor, Z.land_lor_distr_l. Qed.

Lemma field_or_fields (fields : list Z) (init off width : Z) :
  field (or_fields init fields) off width
  = fold_left Z.lor (map (fun x => field x off width) fields)
      (field init off width).
Proof.
  unfold or_fields. revert init.
  induction fields as [ | x l IH]; intro init; cbn [fold_left map].
  - reflexivity.
  - now rewrite IH, field_lor.
Qed.

Lemma high_bits_zero (a k i : Z) :
  0 <= a < 2 ^ k -> k <= i -> Z.testbit a i = false.
Proof.
  intros Ha Hi. destruct (Z.eq_dec a 0) as [-> | Hnz].
  - apply Z.testbit_0_l.
  - apply Z.bits_above_log2; [lia | ].
    assert (0 <= k) by (destruct (Z.le_gt_cases 0 k); [assumption | ];
                        rewrite Z.pow_neg_r in Ha by lia; lia).
    apply Z.lt_le_trans with k; [ | assumption].
    apply Z.log2_lt_pow2; lia.
Qed.

(** A value of [width] bits shifted to [off] is read back from there. *)
Lemma field_shl32_same (a off width : Z) :
  0 <= off -> 0 <= width -> off + width <= 32 -> 0 <= a < 2 ^ width ->
  field (shl32 a off) off width = a.
Proof.
  intros Ho Hw Hs Ha. unfold field, shl32, to_uint32.
  apply Z.bits_inj'. intros i Hi.
  rewrite Z.land_spec, Z.shiftr_spec, Z.testbit_ones_nonneg by lia.
  destruct (Z.ltb_spec i width).
  - rewrite Z.mod_pow2_bits_low by lia.
    rewrite Z.shiftl_spec by lia.
    replace (i + off - off) with i by lia. apply andb_true_r.
  - rewrite andb_false_r. symmetry. now apply (high_bits_zero a width).
Qed.

(** A value of [k] bits shifted to [n] leaves the fields below [n] and
    from [n + k] on alone. *)
Lemma field_shl32_other (a n k off width : Z) :
  0 <= n -> 0 <= off -> 0 <= width -> 0 <= a < 2 ^ k ->
  n + k <= off \/ off + width <= n ->
  field (shl32 a n) off width = 0.
Proof.
  intros Hn Ho Hw Ha Hd. unfold field, shl32, to_uint32.
  apply Z.bits_inj'. intros i Hi.
  rewrite Z.bits_0, Z.land_spec, Z.shiftr_spec, Z.testbit_ones_nonneg by lia.
  destruct (Z.ltb_spec i width); [ | apply andb_false_r].
  rewrite andb_true_r.
  destruct (Z.ltb_spec (i + off) 32).
  - rewrite Z.mod_pow2_bits_low by lia.
    rewrite Z.shiftl_spec by lia.
    destruct Hd as [Hd | Hd].
    + apply (high_bits_zero a k); lia.
    + apply Z.testbit_neg_r. lia.
  - apply Z.mod_pow2_bits_high. lia.
Qed.

Ltac split_all :=
  repeat match goal with
         | |- _ /\ _ => split
         | |- _ -> _ => intro
         end.

(** One field of a word built by [or_fields]: every [shl32 a n] of the
    list is either the field asked for or clear of it. *)
Ltac read_field :=
  rewrite field_or_fields; cbn [map fold_left];
  repeat match goal with
         | |- context [field (shl32 ?a ?n) ?off ?w] =>
             first
               [ rewrite (field_shl32_same a off w) by lia
               | rewrite (field_shl32_other a n 0 off w) by lia
               | rewrite (field_shl32_other a n 1 off w) by lia
               | rewrite (field_shl32_other a n 2 off w) by lia
               | rewrite (field_shl32_other a n 3 off w) by lia
               | rewrite (field_shl32_other a n 4 off w) by lia
               | rewrite (field_shl32_other a n 8 off w) by lia
               | rewrite (field_shl32_other a n 12 off w) by lia
               | rewrite (field_shl32_other a n 16 off w) by lia ]
         end;
  repeat match goal with
         | |- context [field (Zpos ?c) ?off ?w] =>
             let v := eval vm_compute in (field (Zpos c) off w) in
             change (field (Zpos c) off w) with v
         | |- context [field 0 ?off ?w] =>
             change (field 0 off w) with 0
         end;
  rewrite ?Z.lor_0_l, ?Z.lor_0_r; try reflexivity.

(** ** More facts of every arithmetic *)

Section MoreOfAnyArithmetic.

Context {double : Type} {arith : Double double}.

Implicit Types (m : machine double) (o : ADF4351 double)
  (s : synthesis double) (f c : double).

(** What the carry returns. *)
Lemma carry_inv (n nf md : Z) m n' nf' m' :
  0 <= n < 65536 -> 0 <= nf < 65536 -> 0 <= md ->
  carry n nf md m = Ok (n', nf') m' ->
  m' = m /\ 0 < md /\
  n' = to_uint16 (n + nf / md) /\ nf' = nf mod md /\
  0 <= n' < 65536 /\ 0 <= nf' < md.
Proof.
  intros Hn Hf Hmd. unfold carry, udiv, umod, bind, ret, raise.
  destruct (Z.geb_spec nf md) as [Hge | Hlt].
  - destruct (Z.eqb_spec md 0) as [-> | Hnz]; [discriminate | ].
    intro H. apply Ok_inj in H as [H <-]. injection H as <- <-.
    pose proof (Z.mod_pos_bound nf md ltac:(lia)) as Hr.
    pose proof (Z.mod_le nf md ltac:(lia) ltac:(lia)) as Hle.
    pose proof (to_uint16_range (n + nf / md)).
    rewrite (to_uint16_small (nf mod md)) by lia. repeat split; lia.
  - intro H. apply Ok_inj in H as [H <-]. injection H as <- <-.
    rewrite Z.div_small, Z.mod_small, Z.add_0_r, to_uint16_small by lia.
    repeat split; lia.
Qed.

(** The carry does not look at the machine. *)
Lemma carry_any_machine (n nf md : Z) m m0 :
  carry n nf md m
  = match carry n nf md m0 with
    | Ok r _ => Ok r m
    | Fault e => Fault e
    end.
Proof.
  unfold carry, udiv, umod, bind, ret, raise.
  destruct (nf >=? md); [destruct (md =? 0) | ]; reflexivity.
Qed.

Lemma carry_state (n nf md : Z) m r m' :
  carry n nf md m = Ok r m' -> m' = m.
Proof.
  unfold carry, udiv, umod, bind, ret, raise.
  destruct (nf >=? md); [destruct (md =? 0) | ]; intro H;
    try discriminate; now apply Ok_inj in H.
Qed.

(** The synthesis reads the object and nothing of the bus. *)
Lemma updateRegisters_synthesis_any_bus c m (b : list event) :
  updateRegisters_synthesis c (mkMachine (this m) b)
  = match updateRegisters_synthesis c m with
    | Ok p _ => Ok p (mkMachine (this m) b)
    | Fault e => Fault e
    end.
Proof.
  unfold updateRegisters_synthesis, bind at 1 3, get_this. cbn [this].
  destruct (selectOutputDivider _) as [d sel].
  destruct (_ || _); [reflexivity | ].
  unfold bind.
  rewrite (carry_any_machine _ _ _ (mkMachine (this m) b) m).
  destruct (carry _ _ _ m) as [[n nf] m1 | e]; reflexivity.
Qed.

(** The locals of a synthesis that returns, from the object it read. *)
Lemma updateRegisters_synthesis_inv c m s m' :
  updateRegisters_synthesis c m = Ok (Some s) m' ->
  let f := _outputFreqMHz (this m) in
  let pfd := _pfdFreqMHz (this m) in
  let N := ddiv (dmul f (fst (selectOutputDivider f))) pfd in
  let n0 := to_uint16 (floor N) in
  let nf0 :=
    to_uint16 (round (dmul (dsub N (of_int n0)) (of_int (modulus pfd c)))) in
  m' = m /\
  outputDivider s = fst (selectOutputDivider f) /\
  RFdivSel s = snd (selectOutputDivider f) /\
  vcoFreqMHz s = dmul f (fst (selectOutputDivider f)) /\
  MOD s = modulus pfd c /\
  carry n0 nf0 (modulus pfd c) m = Ok (N_int s, N_frac s) m /\
  prescaler s = (if N_int s <? 75 then 0 else 1) /\
  ldp s = (if N_frac s =? 0 then 1 else 0) /\
  ldf s = (if N_frac s =? 0 then 1 else 0) /\
  feedbackSelect s = 1 /\
  bandSelDiv s = 200.
Proof.
  intro H. cbv zeta.
  pose proof (updateRegisters_synthesis_state _ _ _ _ H) as ->.
  split; [reflexivity | ].
  unfold updateRegisters_synthesis, bind at 1, get_this in H.
  cbv beta iota in H.
  destruct (selectOutputDivider _) as [d sel]. cbn [fst snd].
  destruct (_ || _); [discriminate | ].
  unfold bind in H.
  destruct (carry _ _ _ m) as [[n nf] m1 | e] eqn:Hc; [ | discriminate].
  pose proof (carry_state _ _ _ _ _ _ Hc) as ->.
  apply Ok_inj in H as [H _]. injection H as <-. cbn.
  repeat split; try reflexivity.
  now destruct (dgt d (lit 1)).
Qed.

(** [selectOutputDivider] returns one of its seven rows, whatever it is
    given. *)
Lemma selectOutputDivider_rows f :
  In (selectOutputDivider f)
    [(lit 1, 0); (lit 2, 1); (lit 4, 2); (lit 8, 3); (lit 16, 4);
     (lit 32, 5); (lit 64, 6)].
Proof.
  unfold selectOutputDivider.
  repeat match goal with
         | |- context [if ?b then _ else _] => destruct b
         end; simpl; tauto.
Qed.

(** The ranges of the locals of a synthesis that returns. *)
Lemma synthesis_ranges c m s m' :
  updateRegisters_synthesis c m = Ok (Some s) m' ->
  0 <= N_int s < 65536 /\ 0 < MOD s <= 4095 /\ 0 <= N_frac s < MOD s /\
  0 <= prescaler s <= 1 /\ 0 <= ldp s <= 1 /\ 0 <= ldf s <= 1 /\
  0 <= RFdivSel s <= 6.
Proof.
  intro H. pose proof (updateRegisters_synthesis_inv _ _ _ _ H) as Hi.
  cbv zeta in Hi.
  destruct Hi as (_ & _ & Hsel & _ & Hmod & Hc & Hp & Hl & Hl' & _ & _).
  pose proof (modulus_range (_pfdFreqMHz (this m)) c) as Hm.
  apply carry_inv in Hc as (_ & Hpos & _ & _ & Hn & Hf);
    try apply to_uint16_range; try lia.
  rewrite Hmod, Hp, Hl, Hl', Hsel.
  pose proof (selectOutputDivider_rows (_outputFreqMHz (this m))) as Hr.
  repeat split; try lia;
    try (destruct (N_int s <? 75); lia);
    try (destruct (N_frac s =? 0); lia);
    simpl in Hr;
    repeat (destruct Hr as [<- | Hr]; [cbn [snd]; lia | ]);
    contradiction.
Qed.

(** A [setFrequency] that returns [true], in full: the synthesis it ran
    and the machine it leaves. *)
Lemma setFrequency_true_inv f c m m' :
  setFrequency f c m = Ok true m' ->
  exists s,
    updateRegisters_synthesis c (with_frequency f m)
    = Ok (Some s) (with_frequency f m) /\
    this m' = set_outputFreqMHz f (this m) /\
    bus m' = bus m ++ flat_map (frame (_lePin (this m))) (words (this m') s) /\
    emits m m' (words (this m') s).
Proof.
  rewrite setFrequency_unfold.
  destruct (_ || _); [discriminate | ].
  intro H. apply updateRegisters_true in H as (s & Hs & ->).
  exists s. split; [exact Hs | ]. split; [reflexivity | ].
  split; [reflexivity | ].
  eexists. split; [reflexivity | ].
  apply sink_words_frames, words_range.
Qed.


Lemma land_small (a k : Z) :
  0 <= a < 2 ^ k -> Z.land a (Z.ones k) = a.
Proof.
  intro Ha. destruct (Z.le_gt_cases 0 k) as [Hk | Hk].
  - rewrite Z.land_ones by assumption. now apply Z.mod_small.
  - rewrite Z.pow_neg_r in Ha by assumption. lia.
Qed.

(** The fields of R0 and R1. *)
Lemma reg01_fields s :
  0 <= N_int s < 65536 -> 0 <= N_frac s < 4096 -> 0 <= MOD s < 4096 ->
  0 <= prescaler s <= 1 ->
  (field (reg0 s) 15 16 = N_int s /\ field (reg0 s) 3 12 = N_frac s /\
   field (reg0 s) 31 1 = 0) /\
  (field (reg1 s) 3 12 = MOD s /\ field (reg1 s) 15 12 = 1 /\
   field (reg1 s) 27 1 = prescaler s /\ field (reg1 s) 28 4 = 0).
Proof.
  intros Hn Hf Hm Hp. unfold reg0, reg1.
  split_all; read_field.
Qed.

(** The fields of R2. *)
Lemma reg2_fields o s :
  settings_in_range o -> 0 <= ldp s <= 1 -> 0 <= ldf s <= 1 ->
  field (reg2 o s) 3 3 = 0 /\ field (reg2 o s) 6 1 = 1 /\
  field (reg2 o s) 7 1 = ldp s /\ field (reg2 o s) 8 1 = ldf s /\
  field (reg2 o s) 9 4 = _chargePumpCurr o /\
  field (reg2 o s) 13 1 = 0 /\
  field (reg2 o s) 14 10 = _rCounter o /\
  (_refDiv2 o <= 1 ->
   field (reg2 o s) 24 1 = _refDiv2 o /\
   (_refDoubler o <= 1 ->
    field (reg2 o s) 25 1 = _refDoubler o /\ field (reg2 o s) 26 6 = 0)).
Proof.
  unfold settings_in_range, uint8.
  intros (_ & _ & Hc & Hr & Hd & Hv) Hl Hl'. unfold reg2.
  split_all; read_field.
Qed.

(** The fields of R4. *)
Lemma reg4_fields o s :
  settings_in_range o -> 0 <= RFdivSel s <= 6 -> feedbackSelect s = 1 ->
  bandSelDiv s = 200 ->
  field (reg4 o s) 3 2 = _outputPower o /\
  field (reg4 o s) 5 1 = _rfOutputEnable o /\
  field (reg4 o s) 6 6 = 0 /\
  field (reg4 o s) 12 8 = 200 /\
  field (reg4 o s) 20 3 = RFdivSel s /\
  field (reg4 o s) 23 1 = 1 /\
  field (reg4 o s) 24 8 = 0.
Proof.
  unfold settings_in_range.
  intros (Hp & He & _) Hs Hf Hb. unfold reg4. rewrite Hf, Hb.
  replace (Z.land (_outputPower o) 0x3) with (_outputPower o)
    by (symmetry; apply (land_small _ 2); lia).
  replace (Z.land (RFdivSel s) 0x7) with (RFdivSel s)
    by (symmetry; apply (land_small _ 3); lia).
  change (Z.land 200 0xFF) with 200.
  split_all; read_field.
Qed.

Lemma set_outputFreqMHz_settings f o :
  settings_in_range (set_outputFreqMHz f o) <-> settings_in_range o.
Proof. reflexivity. Qed.

(** The outcomes of [setFrequency]: refused by the range check, refused
    by the VCO check, or the six words written. *)
Lemma setFrequency_this f c m r m' :
  setFrequency f c m = Ok r m' ->
  this m' = this m \/ this m' = set_outputFreqMHz f (this m).
Proof.
  rewrite setFrequency_unfold. destruct (_ || _).
  - intro H. apply Ok_inj in H as [_ <-]. now left.
  - rewrite updateRegisters_unfold.
    destruct (updateRegisters_synthesis c (with_frequency f m))
      as [[s | ] m1 | e] eqn:Hs; [ | | discriminate];
      apply updateRegisters_synthesis_state in Hs as ->;
      intro H; apply Ok_inj in H as [_ <-]; now right.
Qed.

(** A frequency that passes both checks: the call faults on a zero
    modulus and succeeds on any other. *)
Lemma accepted_outcome f c m :
  dlt f (lit 35) || dgt f (lit 4400) = false -> vco_rejected f = false ->
  (modulus (_pfdFreqMHz (this m)) c = 0 /\
   setFrequency f c m = Fault DivisionByZero) \/
  (0 < modulus (_pfdFreqMHz (this m)) c /\
   exists m', setFrequency f c m = Ok true m' /\
              this m' = set_outputFreqMHz f (this m)).
Proof.
  intros Hr Hv. rewrite setFrequency_unfold, Hr, updateRegisters_unfold.
  destruct (updateRegisters_synthesis_cases c (with_frequency f m))
    as [[Hc _] | [(_ & Hz & ->) | (_ & s & -> & Hm & Hb)]].
  - cbn [with_frequency this _outputFreqMHz set_outputFreqMHz] in Hc.
    congruence.
  - left. split; [exact Hz | reflexivity].
  - right. cbn [with_frequency this _pfdFreqMHz set_outputFreqMHz] in Hm.
    split; [lia | ]. eexists. split; reflexivity.
Qed.

Lemma transfers_of_frame (lePin data b : Z) :
  In (SPITransfer b) (frame lePin data) ->
  b = Z.land (Z.shiftr data 24) 0xFF \/ b = Z.land (Z.shiftr data 16) 0xFF \/
  b = Z.land (Z.shiftr data 8) 0xFF \/ b = Z.land data 0xFF.
Proof.
  unfold frame.
  generalize (Z.land (Z.shiftr data 24) 0xFF) (Z.land (Z.shiftr data 16) 0xFF)
    (Z.land (Z.shiftr data 8) 0xFF) (Z.land data 0xFF).
  intros b3 b2 b1 b0 H. cbn [In] in H.
  destruct H as [H | [H | [H | [H | [H | [H | [H | []]]]]]]];
    try discriminate H; injection H as <-; auto.
Qed.

(** X1.  [writeRegister] of a 32-bit word returns, leaves the object as it
    was, and puts on the bus one LE pulse with four bytes, each within
    0..255, most significant first, from which the sink gets the word
    back. *)
Theorem writeRegister_round_trip (data : Z) m :
  0 <= data < 2 ^ 32 ->
  exists m',
    writeRegister data m = Ok tt m' /\
    this m' = this m /\
    bus m' = bus m ++ frame (_lePin (this m)) data /\
    emits m m' [data] /\
    (forall b, In (SPITransfer b) (frame (_lePin (this m)) data) ->
               0 <= b <= 255).
Proof.
  intro Hd. rewrite writeRegister_run. eexists.
  split; [reflexivity | ]. split; [reflexivity | ]. split; [reflexivity | ].
  split.
  - eexists. split; [reflexivity | ].
    pose proof (sink_words_frames (_lePin (this m)) [data]) as H.
    cbn [flat_map] in H. rewrite app_nil_r in H. apply H.
    now repeat constructor.
  - intros b Hb. apply transfers_of_frame in Hb.
    assert (Hl : forall x, 0 <= Z.land x 0xFF < 256).
    { intro x. change 0xFF with (Z.ones 8). rewrite Z.land_ones by lia.
      change (2 ^ 8) with 256.
      pose proof (Z.mod_pos_bound x 256 eq_refl). lia. }
    destruct Hb as [-> | [-> | [-> | ->]]];
      match goal with |- _ <= Z.land ?x _ <= _ => specialize (Hl x) end;
      lia.
Qed.

(** X2.  The constructor puts the settings within the widths of their
    register fields, and every public method called with [uint8_t]
    arguments keeps them there. *)
Theorem settings_stay_in_range :
  (forall lePin, settings_in_range (ADF4351_new lePin)) /\
  (forall m,
      settings_in_range (this m) ->
      (forall ref m', begin ref m = Ok tt m' -> settings_in_range (this m')) /\
      (forall ref rc db dv m',
          uint8 rc -> uint8 db -> uint8 dv ->
          setReference ref rc db dv m = Ok tt m' ->
          settings_in_range (this m')) /\
      (forall v m',
          uint8 v -> setOutputPower v m = Ok tt m' ->
          settings_in_range (this m')) /\
      (forall b m',
          enableOutput b m = Ok tt m' -> settings_in_range (this m')) /\
      (forall v m',
          uint8 v -> setChargePumpCurrent v m = Ok tt m' ->
          settings_in_range (this m')) /\
      (forall f c r m',
          setFrequency f c m = Ok r m' -> settings_in_range (this m'))).
Proof.
  split.
  - intro lePin. unfold settings_in_range, uint8. cbn. lia.
  - intros m Hm. unfold settings_in_range, uint8 in *.
    split; [ | split; [ | split; [ | split; [ | split]]]].
    + intros ref m' H. apply Ok_inj in H as [_ <-]. cbn. lia.
    + intros ref rc db dv m' Hrc Hdb Hdv H.
      apply Ok_inj in H as [_ <-]. cbn. lia.
    + intros v m' Hv H. apply Ok_inj in H as [_ <-]. cbn.
      destruct (Z.gtb_spec v 3); lia.
    + intros b m' H. apply Ok_inj in H as [_ <-]. cbn. destruct b; lia.
    + intros v m' Hv H. apply Ok_inj in H as [_ <-]. cbn.
      destruct (Z.gtb_spec v 15); lia.
    + intros f c r m' H. apply setFrequency_this in H as [-> | ->];
        cbn; lia.
Qed.

End MoreOfAnyArithmetic.

Section RegistersOnTheBus.

Context {double : Type} {arith : Double double}.

Implicit Types (m : machine double) (o : ADF4351 double)
  (s : synthesis double) (f c : double).

(** X3.  After a successful [setFrequency] the sink has received six
    words of which R4 carries the output power in bits 3-4 and the output
    enable in bit 5, and R2 the charge-pump current in bits 9-12, the R
    counter in bits 14-23 and, when they are flags (0 or 1), the reference
    divide-by-2 in bit 24 and the doubler in bit 25. *)
Theorem registers_carry_settings f c m m' :
  settings_in_range (this m) ->
  _refDiv2 (this m) <= 1 -> _refDoubler (this m) <= 1 ->
  setFrequency f c m = Ok true m' ->
  exists r5 r4 r3 r2 r1 r0,
    emits m m' [r5; r4; r3; r2; r1; r0] /\
    field r4 3 2 = _outputPower (this m) /\
    field r4 5 1 = _rfOutputEnable (this m) /\
    field r2 9 4 = _chargePumpCurr (this m) /\
    field r2 14 10 = _rCounter (this m) /\
    field r2 24 1 = _refDiv2 (this m) /\
    field r2 25 1 = _refDoubler (this m).
Proof.
  intros Hm Hv Hd H.
  apply setFrequency_true_inv in H as (s & Hs & Ht & _ & He).
  destruct (synthesis_ranges _ _ _ _ Hs) as (_ & _ & _ & _ & Hl & Hl' & Hsel).
  destruct (updateRegisters_synthesis_inv _ _ _ _ Hs)
    as (_ & _ & _ & _ & _ & _ & _ & _ & _ & Hfb & Hbs).
  assert (Hm' : settings_in_range (this m')) by (rewrite Ht; exact Hm).
  destruct (reg4_fields (this m') s Hm' Hsel Hfb Hbs)
    as (F1 & F2 & _).
  destruct (reg2_fields (this m') s Hm' Hl Hl')
    as (_ & _ & _ & _ & F3 & _ & F4 & F5).
  rewrite Ht in F1, F2, F3, F4, F5.
  cbn [set_outputFreqMHz _outputPower _rfOutputEnable _chargePumpCurr
         _rCounter _refDiv2 _refDoubler] in F1, F2, F3, F4, F5.
  destruct (F5 Hv) as (F6 & F7). destruct (F7 Hd) as (F8 & _).
  rewrite Ht in He.
  exists reg5, (reg4 (set_outputFreqMHz f (this m)) s), reg3,
    (reg2 (set_outputFreqMHz f (this m)) s), (reg1 s), (reg0 s).
  split; [exact He | ]. auto 10.
Qed.

(** X4.  What a setter stores reaches the chip with the next successful
    [setFrequency], and not before: from the call of the setter to the end
    of [setFrequency] the sink receives the six words and no other, with
    the capped power in R4 bits 3-4, the enable flag in R4 bit 5, the
    capped charge-pump current in R2 bits 9-12, and the R counter of
    [setReference] in R2 bits 14-23 with its flags in bits 24 and 25. *)
Theorem setters_take_effect f c m :
  settings_in_range (this m) ->
  (forall v m1 m2,
      uint8 v -> setOutputPower v m = Ok tt m1 ->
      setFrequency f c m1 = Ok true m2 ->
      exists r5 r4 r3 r2 r1 r0,
        emits m m2 [r5; r4; r3; r2; r1; r0] /\ field r4 3 2 = Z.min v 3) /\
  (forall b m1 m2,
      enableOutput b m = Ok tt m1 ->
      setFrequency f c m1 = Ok true m2 ->
      exists r5 r4 r3 r2 r1 r0,
        emits m m2 [r5; r4; r3; r2; r1; r0] /\
        field r4 5 1 = (if b then 1 else 0)) /\
  (forall v m1 m2,
      uint8 v -> setChargePumpCurrent v m = Ok tt m1 ->
      setFrequency f c m1 = Ok true m2 ->
      exists r5 r4 r3 r2 r1 r0,
        emits m m2 [r5; r4; r3; r2; r1; r0] /\ field r2 9 4 = Z.min v 15) /\
  (forall ref rc db dv m1 m2,
      uint8 rc -> 0 <= db <= 1 -> 0 <= dv <= 1 ->
      setReference ref rc db dv m = Ok tt m1 ->
      setFrequency f c m1 = Ok true m2 ->
      exists r5 r4 r3 r2 r1 r0,
        emits m m2 [r5; r4; r3; r2; r1; r0] /\
        field r2 14 10 = rc /\ field r2 24 1 = dv /\ field r2 25 1 = db).
Proof.
  intro Hm.
  assert (Hgen : forall m1 m2,
             bus m1 = bus m -> settings_in_range (this m1) ->
             setFrequency f c m1 = Ok true m2 ->
             exists s,
               emits m m2 [reg5; reg4 (this m2) s; reg3; reg2 (this m2) s;
                           reg1 s; reg0 s] /\
               field (reg4 (this m2) s) 3 2 = _outputPower (this m1) /\
               field (reg4 (this m2) s) 5 1 = _rfOutputEnable (this m1) /\
               field (reg2 (this m2) s) 9 4 = _chargePumpCurr (this m1) /\
               field (reg2 (this m2) s) 14 10 = _rCounter (this m1) /\
               (_refDiv2 (this m1) <= 1 ->
                field (reg2 (this m2) s) 24 1 = _refDiv2 (this m1) /\
                (_refDoubler (this m1) <= 1 ->
                 field (reg2 (this m2) s) 25 1 = _refDoubler (this m1)))).
  { intros m1 m2 Hb Hm1 H.
    apply setFrequency_true_inv in H as (s & Hs & Ht & _ & He).
    destruct (synthesis_ranges _ _ _ _ Hs)
      as (_ & _ & _ & _ & Hl & Hl' & Hsel).
    destruct (updateRegisters_synthesis_inv _ _ _ _ Hs)
      as (_ & _ & _ & _ & _ & _ & _ & _ & _ & Hfb & Hbs).
    assert (Hm' : settings_in_range (this m2)) by (rewrite Ht; exact Hm1).
    destruct (reg4_fields (this m2) s Hm' Hsel Hfb Hbs) as (F1 & F2 & _).
    destruct (reg2_fields (this m2) s Hm' Hl Hl')
      as (_ & _ & _ & _ & F3 & _ & F4 & F5).
    exists s. split.
    - destruct He as (t & Et & Ew). exists t. rewrite <- Hb. now split.
    - rewrite Ht in F1, F2, F3, F4, F5 |- *.
      cbn [set_outputFreqMHz _outputPower _rfOutputEnable _chargePumpCurr
             _rCounter _refDiv2 _refDoubler] in F1, F2, F3, F4, F5 |- *.
      split; [exact F1 | ]. split; [exact F2 | ]. split; [exact F3 | ].
      split; [exact F4 | ].
      intro Hv. destruct (F5 Hv) as (F6 & F7). split; [exact F6 | ].
      intro Hd. now destruct (F7 Hd). }
  unfold settings_in_range, uint8 in Hm.
  split; [ | split; [ | split]].
  - intros v m1 m2 Hv H1 H2. apply Ok_inj in H1 as [_ E].
    assert (Hb : bus m1 = bus m) by (rewrite <- E; reflexivity).
    assert (Hv1 : _outputPower (this m1) = Z.min v 3)
      by (rewrite <- E; cbn; unfold uint8 in Hv;
          destruct (Z.gtb_spec v 3); lia).
    assert (Hs1 : settings_in_range (this m1))
      by (unfold settings_in_range, uint8 in *; rewrite Hv1;
          rewrite <- E; cbn; lia).
    destruct (Hgen m1 m2 Hb Hs1 H2) as (s & He & F1 & _).
    do 6 eexists. split; [exact He | ]. now rewrite F1.
  - intros b m1 m2 H1 H2. apply Ok_inj in H1 as [_ E].
    assert (Hb : bus m1 = bus m) by (rewrite <- E; reflexivity).
    assert (Hv1 : _rfOutputEnable (this m1) = if b then 1 else 0)
      by (rewrite <- E; reflexivity).
    assert (Hs1 : settings_in_range (this m1))
      by (unfold settings_in_range, uint8 in *; rewrite Hv1;
          rewrite <- E; cbn; destruct b; lia).
    destruct (Hgen m1 m2 Hb Hs1 H2) as (s & He & _ & F2 & _).
    do 6 eexists. split; [exact He | ]. now rewrite F2.
  - intros v m1 m2 Hv H1 H2. apply Ok_inj in H1 as [_ E].
    assert (Hb : bus m1 = bus m) by (rewrite <- E; reflexivity).
    assert (Hv1 : _chargePumpCurr (this m1) = Z.min v 15)
      by (rewrite <- E; cbn; unfold uint8 in Hv;
          destruct (Z.gtb_spec v 15); lia).
    assert (Hs1 : settings_in_range (this m1))
      by (unfold settings_in_range, uint8 in *; rewrite Hv1;
          rewrite <- E; cbn; lia).
    destruct (Hgen m1 m2 Hb Hs1 H2) as (s & He & _ & _ & F3 & _).
    do 6 eexists. split; [exact He | ]. now rewrite F3.
  - intros ref rc db dv m1 m2 Hrc Hdb Hdv H1 H2.
    apply Ok_inj in H1 as [_ E].
    assert (Hb : bus m1 = bus m) by (rewrite <- E; reflexivity).
    assert (Hv1 : _rCounter (this m1) = rc /\ _refDiv2 (this m1) = dv /\
                  _refDoubler (this m1) = db)
      by (rewrite <- E; repeat split; reflexivity).
    destruct Hv1 as (V1 & V2 & V3).
    assert (Hs1 : settings_in_range (this m1))
      by (unfold settings_in_range, uint8 in *; rewrite V1, V2, V3;
          rewrite <- E; cbn; lia).
    destruct (Hgen m1 m2 Hb Hs1 H2) as (s & He & _ & _ & _ & F4 & F5).
    rewrite V1 in F4. rewrite V2, V3 in F5.
    destruct (F5 ltac:(lia)) as (F6 & F7). specialize (F7 ltac:(lia)).
    do 6 eexists. split; [exact He | ]. auto.
Qed.

(** X5.  After a successful [setFrequency] R0 and R1 carry the ratio of its
    synthesis: N_int in bits 15-30 of R0 and N_frac in bits 3-14, with bit
    31 clear; MOD in bits 3-14 of R1, the phase value 1 above it, and in bit
    27 the prescaler, which is 0 below N_int = 75 and 1 from there on.  No
    field runs into its neighbour: N_int < 65536 and N_frac < MOD <= 4095. *)
Theorem registers_carry_ratio f c m m' :
  setFrequency f c m = Ok true m' ->
  exists s r5 r4 r3 r2 r1 r0,
    updateRegisters_synthesis c (with_frequency f m)
    = Ok (Some s) (with_frequency f m) /\
    emits m m' [r5; r4; r3; r2; r1; r0] /\
    0 <= N_int s < 65536 /\ 0 <= N_frac s < MOD s /\ MOD s <= 4095 /\
    field r0 15 16 = N_int s /\ field r0 3 12 = N_frac s /\
    field r0 31 1 = 0 /\
    field r1 3 12 = MOD s /\ field r1 15 12 = 1 /\
    field r1 27 1 = (if N_int s <? 75 then 0 else 1) /\
    field r1 28 4 = 0.
Proof.
  intro H. apply setFrequency_true_inv in H as (s & Hs & Ht & _ & He).
  destruct (synthesis_ranges _ _ _ _ Hs) as (Hn & Hmd & Hf & Hp & _).
  destruct (updateRegisters_synthesis_inv _ _ _ _ Hs)
    as (_ & _ & _ & _ & _ & _ & Hpr & _).
  destruct (reg01_fields s Hn ltac:(lia) ltac:(lia) Hp)
    as ((F1 & F2 & F3) & (F4 & F5 & F6 & F7)).
  rewrite Hpr in F6.
  exists s, reg5, (reg4 (this m') s), reg3, (reg2 (this m') s), (reg1 s),
    (reg0 s).
  split; [exact Hs | ]. split; [exact He | ].
  repeat (split; [assumption || lia | ]). assumption.
Qed.

(** X6.  After a successful [setFrequency] with its settings in range, R2
    has bits 7 and 8 both set in integer-N mode (N_frac = 0) and both clear
    otherwise, bit 6 set and bits 3-5 and 13 clear; R4 has the select code
    of the divider in bits 20-22, the feedback select bit 23 set whatever
    the divider, and 200 in bits 12-19. *)
Theorem registers_carry_mode f c m m' :
  settings_in_range (this m) ->
  setFrequency f c m = Ok true m' ->
  exists s r5 r4 r3 r2 r1 r0,
    updateRegisters_synthesis c (with_frequency f m)
    = Ok (Some s) (with_frequency f m) /\
    emits m m' [r5; r4; r3; r2; r1; r0] /\
    field r2 7 1 = (if N_frac s =? 0 then 1 else 0) /\
    field r2 8 1 = (if N_frac s =? 0 then 1 else 0) /\
    field r2 6 1 = 1 /\ field r2 3 3 = 0 /\ field r2 13 1 = 0 /\
    RFdivSel s = snd (selectOutputDivider f) /\
    field r4 20 3 = RFdivSel s /\
    field r4 23 1 = 1 /\
    field r4 12 8 = 200 /\
    field r4 6 6 = 0.
Proof.
  intros Hm H. apply setFrequency_true_inv in H as (s & Hs & Ht & _ & He).
  destruct (synthesis_ranges _ _ _ _ Hs) as (_ & _ & _ & _ & Hl & Hl' & Hsel).
  destruct (updateRegisters_synthesis_inv _ _ _ _ Hs)
    as (_ & _ & Hrs & _ & _ & _ & _ & Hldp & Hldf & Hfb & Hbs).
  assert (Hm' : settings_in_range (this m')) by (rewrite Ht; exact Hm).
  destruct (reg4_fields (this m') s Hm' Hsel Hfb Hbs)
    as (_ & _ & G1 & G2 & G3 & G4 & _).
  destruct (reg2_fields (this m') s Hm' Hl Hl')
    as (F1 & F2 & F3 & F4 & _ & F5 & _).
  rewrite Hldp in F3. rewrite Hldf in F4.
  exists s, reg5, (reg4 (this m') s), reg3, (reg2 (this m') s), (reg1 s),
    (reg0 s).
  split; [exact Hs | ]. split; [exact He | ].
  repeat (split; [assumption | ]). assumption.
Qed.

(** X7.  [setFrequency] is idempotent: a successful call made again with
    the same arguments succeeds again, sends the same six words and leaves
    the object as the first call did. *)
Theorem setFrequency_idempotent f c m m1 :
  setFrequency f c m = Ok true m1 ->
  exists m2 ws,
    setFrequency f c m1 = Ok true m2 /\
    emits m m1 ws /\ emits m1 m2 ws /\ length ws = 6%nat /\
    this m2 = this m1.
Proof.
  intro H. pose proof (setFrequency_true _ _ _ _ H) as (Hr & _).
  apply setFrequency_true_inv in H as (s & Hs & Ht & _ & He).
  assert (E : with_frequency f m1
              = mkMachine (this (with_frequency f m)) (bus m1)).
  { unfold with_frequency. rewrite Ht. reflexivity. }
  pose proof (updateRegisters_synthesis_any_bus c (with_frequency f m) (bus m1))
    as Hs2.
  rewrite Hs, <- E in Hs2.
  eexists. exists (words (this m1) s).
  split; [ | split; [exact He | split; [ | split]]].
  - rewrite setFrequency_unfold, Hr, updateRegisters_unfold, Hs2.
    reflexivity.
  - cbn [bus this]. eexists. split; [reflexivity | ].
    rewrite E. cbn [this _lePin with_frequency set_outputFreqMHz].
    rewrite Ht. apply sink_words_frames, words_range.
  - reflexivity.
  - rewrite E. cbn [this with_frequency]. now rewrite Ht.
Qed.

(** X8.  The carry correction leaves the ratio as it is: while N_int stays
    within 16 bits, N_int * MOD + N_frac is the same after it, the
    numerator is below the modulus, and a numerator already below the
    modulus is not touched. *)
Theorem carry_keeps_ratio (n nf md : Z) m n' nf' m' :
  0 <= n -> 0 <= nf < 65536 -> 0 <= md -> n + nf / md < 65536 ->
  carry n nf md m = Ok (n', nf') m' ->
  m' = m /\ 0 < md /\
  n' * md + nf' = n * md + nf /\ 0 <= nf' < md /\
  (nf < md -> n' = n /\ nf' = nf).
Proof.
  intros Hn Hnf Hmd Hs H.
  assert (Hq : md = 0 \/ 0 <= nf / md).
  { destruct (Z.eq_dec md 0); [now left | right].
    apply Z.div_pos; lia. }
  assert (Hpos : 0 < md).
  { destruct (Z.eq_dec md 0) as [-> | ]; [ | lia].
    unfold carry, udiv, bind, raise in H. cbn in H.
    destruct (Z.geb_spec nf 0); [discriminate | lia]. }
  apply carry_inv in H as (-> & _ & -> & -> & _ & Hb); try lia.
  pose proof (Z.div_pos nf md ltac:(lia) Hpos).
  rewrite to_uint16_small by lia.
  pose proof (Z.div_mod nf md ltac:(lia)) as Hdm.
  split; [reflexivity | ]. split; [assumption | ].
  split; [nia | ]. split; [assumption | ].
  intro Hlt. rewrite Z.div_small, Z.mod_small by lia. lia.
Qed.

(** X9.  R5 and R3 are the same words in every successful [setFrequency],
    whatever the frequency and the settings: 0x00580005, with the reserved
    bits 19-20 set and lock-detect mode in bit 22, and 0x000004B3, with the
    clock divider 150 in bits 3-14 and no other bit above the address. *)
Theorem constant_registers f c m m' :
  setFrequency f c m = Ok true m' ->
  exists r4 r2 r1 r0,
    emits m m' [0x00580005; r4; 0x000004B3; r2; r1; r0] /\
    field 0x00580005 19 2 = 3 /\ field 0x00580005 22 1 = 1 /\
    field 0x00580005 3 16 = 0 /\ field 0x00580005 21 1 = 0 /\
    field 0x00580005 23 9 = 0 /\
    field 0x000004B3 3 12 = 150 /\ field 0x000004B3 15 17 = 0.
Proof.
  intro H. apply setFrequency_true_inv in H as (s & _ & _ & _ & He).
  exists (reg4 (this m') s), (reg2 (this m') s), (reg1 s), (reg0 s).
  split; [exact He | ].
  repeat split; vm_compute; reflexivity.
Qed.

End RegistersOnTheBus.

(** ** More facts of exact arithmetic *)

Section MoreOfExact.

Implicit Types (m : machine Q) (f c : Q).

Ltac order_of :=
  repeat match goal with
         | |- context [dge ?x ?y] => destruct (dge_spec x y)
         | |- context [dle ?x ?y] => destruct (dle_spec x y)
         | |- context [dlt ?x ?y] => destruct (dlt_spec x y)
         | |- context [dgt ?x ?y] => destruct (dgt_spec x y)
         end;
  cbn [lit of_int dmul exact fst snd] in *.

(** The floor of a number between 0 and [b]. *)
Lemma Qfloor_bounds (x : Q) (b : Z) :
  (0 <= x)%Q -> (x < inject_Z b)%Q -> 0 <= Qfloor x < b.
Proof.
  intros H0 Hb.
  pose proof (Qfloor_le x) as Hl. pose proof (Qlt_floor x) as Hu.
  assert (Ha : (inject_Z (Qfloor x) < inject_Z b)%Q)
    by (apply Qle_lt_trans with x; assumption).
  assert (Hc : (inject_Z 0 < inject_Z (Qfloor x + 1))%Q)
    by (apply Qle_lt_trans with x; assumption).
  rewrite <- Zlt_Qlt in Ha, Hc. lia.
Qed.

(** Rounding a number that is not negative moves it by a half at most. *)
Lemma round_half_away_near (x : Q) :
  (0 <= x)%Q ->
  (inject_Z (round_half_away x) - (1 # 2) <= x)%Q /\
  (x < inject_Z (round_half_away x) + (1 # 2))%Q /\
  0 <= round_half_away x.
Proof.
  intro H0. unfold round_half_away.
  destruct (Qle_bool 0 x) eqn:E;
    [ | apply Qle_bool_iff in H0; congruence].
  pose proof (Qfloor_le (x + (1 # 2))) as Hl.
  pose proof (Qlt_floor (x + (1 # 2))) as Hu.
  rewrite inject_Z_plus in Hu.
  split; [lra | ]. split; [change (inject_Z 1) with 1%Q in Hu; lra | ].
  assert (Hc : (inject_Z 0 < inject_Z (Qfloor (x + (1 # 2)) + 1))%Q).
  { rewrite inject_Z_plus. change (inject_Z 0) with 0%Q.
    change (inject_Z 1) with 1%Q in *. lra. }
  rewrite <- Zlt_Qlt in Hc. lia.
Qed.

(** The locals of a synthesis that returns, in exact arithmetic, while
    the ratio [N = vco / pfd] is not negative and below 65535. *)
Lemma exact_synthesis c m s m' :
  let f := _outputFreqMHz (this m) in
  let N := (f * fst (selectOutputDivider f) / _pfdFreqMHz (this m))%Q in
  (0 <= N)%Q -> (N < 65535)%Q ->
  updateRegisters_synthesis c m = Ok (Some s) m' ->
  let r := round_half_away
             ((N - inject_Z (Qfloor N)) * inject_Z (MOD s))%Q in
  0 < MOD s <= 4095 /\ 0 <= Qfloor N < 65535 /\ 0 <= r <= MOD s /\
  N_int s = Qfloor N + r / MOD s /\ N_frac s = r mod MOD s /\
  N_int s * MOD s + N_frac s = Qfloor N * MOD s + r.
Proof.
  intros f N H0 H1 H. cbv zeta.
  pose proof (synthesis_ranges _ _ _ _ H) as (_ & Hmd & _).
  pose proof (updateRegisters_synthesis_inv _ _ _ _ H) as Hi.
  cbv zeta in Hi. destruct Hi as (_ & _ & _ & _ & Hmod & Hc & _).
  cbn [floor round dmul ddiv dsub of_int exact] in Hc.
  fold f in Hc. fold N in Hc. rewrite <- Hmod in Hc.
  pose proof (Qfloor_bounds N 65535 H0 H1) as Hk.
  rewrite (to_uint16_small (Qfloor N)) in Hc by lia.
  set (k := Qfloor N) in *.
  pose proof (Qfloor_le N) as Hl. pose proof (Qlt_floor N) as Hu.
  fold k in Hl, Hu. rewrite inject_Z_plus in Hu.
  change (inject_Z 1) with 1%Q in Hu.
  set (x := ((N - inject_Z k) * inject_Z (MOD s))%Q) in *.
  assert (Hmq : (0 < inject_Z (MOD s))%Q)
    by (change 0%Q with (inject_Z 0); rewrite <- Zlt_Qlt; lia).
  assert (Hx0 : (0 <= x)%Q).
  { unfold x. apply Qmult_le_0_compat; lra. }
  assert (Hx1 : (x < inject_Z (MOD s))%Q).
  { unfold x. rewrite <- (Qmult_1_l (inject_Z (MOD s))) at 2.
    apply Qmult_lt_compat_r; lra. }
  destruct (round_half_away_near x Hx0) as (Hr1 & Hr2 & Hr0).
  set (r := round_half_away x) in *.
  assert (Hr : r <= MOD s).
  { assert (Hq : (inject_Z r < inject_Z (MOD s + 1))%Q).
    { rewrite inject_Z_plus. change (inject_Z 1) with 1%Q. lra. }
    rewrite <- Zlt_Qlt in Hq. lia. }
  rewrite (to_uint16_small r) in Hc by lia.
  assert (Hq : 0 <= r / MOD s <= 1).
  { split; [apply Z.div_pos; lia | ].
    apply Z.div_le_upper_bound; lia. }
  apply carry_inv in Hc as (_ & _ & En & Ef & _ & _); try lia.
  rewrite to_uint16_small in En by lia.
  pose proof (Z.div_mod r (MOD s) ltac:(lia)) as Hdm.
  repeat split; lia.
Qed.



(** X11.  In exact arithmetic a whole ratio is synthesised as it is: when
    [vco / pfd] is an integer [k] of 16 bits, a synthesis that returns has
    N_int = k and N_frac = 0, and both lock-detect flags set (integer-N
    mode). *)
Theorem whole_ratio_is_integer_mode c m s m' (k : Z) :
  let f := _outputFreqMHz (this m) in
  let N := (f * fst (selectOutputDivider f) / _pfdFreqMHz (this m))%Q in
  0 <= k < 65535 -> (N == inject_Z k)%Q ->
  updateRegisters_synthesis c m = Ok (Some s) m' ->
  N_int s = k /\ N_frac s = 0 /\ ldp s = 1 /\ ldf s = 1.
Proof.
  intros f N Hk EN H.
  assert (H0 : (0 <= N)%Q).
  { rewrite EN. change 0%Q with (inject_Z 0). rewrite <- Zle_Qle. lia. }
  assert (H1 : (N < 65535)%Q).
  { rewrite EN. change 65535%Q with (inject_Z 65535). rewrite <- Zlt_Qlt. lia. }
  destruct (exact_synthesis c m s m' H0 H1 H)
    as (Hmd & _ & _ & En & Ef & _).
  fold f in En, Ef. fold N in En, Ef.
  assert (Ek : Qfloor N = k) by (rewrite EN; apply Qfloor_Z).
  rewrite Ek in En, Ef.
  assert (Er : round_half_away ((N - inject_Z k) * inject_Z (MOD s)) = 0).
  { unfold round_half_away.
    assert (Ez : ((N - inject_Z k) * inject_Z (MOD s) == 0)%Q)
      by (rewrite EN; ring).
    destruct (Qle_bool 0 _) eqn:E.
    - rewrite Ez. reflexivity.
    - exfalso. assert (Hle : (0 <= (N - inject_Z k) * inject_Z (MOD s))%Q)
        by (rewrite Ez; apply Qle_refl).
      apply Qle_bool_iff in Hle. congruence. }
  rewrite Er in En, Ef.
  rewrite Z.div_0_l in En by lia. rewrite Z.mod_0_l in Ef by lia.
  pose proof (updateRegisters_synthesis_inv _ _ _ _ H) as Hi.
  cbv zeta in Hi.
  destruct Hi as (_ & _ & _ & _ & _ & _ & _ & Hl & Hl' & _).
  rewrite Hl, Hl', Ef. repeat split; try reflexivity. lia.
Qed.

(** X12.  In exact arithmetic the divider table is built on octaves: for a
    frequency [f] from 35 MHz to below 2200 MHz, [2 * f] gets the next
    select code down and the same VCO frequency; and a higher frequency
    never gets a higher select code. *)
Theorem selectOutputDivider_octaves f g :
  ((35 <= f)%Q -> (f < 2200)%Q ->
   snd (selectOutputDivider (2 * f)%Q) = snd (selectOutputDivider f) - 1 /\
   (2 * f * fst (selectOutputDivider (2 * f)%Q)
    == f * fst (selectOutputDivider f))%Q) /\
  ((f <= g)%Q ->
   snd (selectOutputDivider g) <= snd (selectOutputDivider f) /\
   (fst (selectOutputDivider g) <= fst (selectOutputDivider f))%Q).
Proof.
  split.
  - intros Hlo Hhi. unfold selectOutputDivider.
    order_of; try (exfalso; lra); split; first [reflexivity | lra].
  - intro Hfg. unfold selectOutputDivider.
    order_of; try (exfalso; lra); split; first [lia | lra].
Qed.




End MoreOfExact.

(** ** Outcomes of [setFrequency], and [begin] *)

(** X15.  A call of [setFrequency] with a frequency of [35, 4400] MHz has
    two outcomes only: the fault of the division when the modulus is 0,
    and [true] with the frequency stored for every other modulus.  So it
    is in exact arithmetic and on doubles. *)
Theorem supported_call_outcome :
  (forall (f c : Q) (m : machine Q),
      (35 <= f <= 4400)%Q -> succeeds_unless_zero_modulus f c m) /\
  (forall (f c : spec_float) (m : machine spec_float),
      Binary64.valid f -> supported f -> succeeds_unless_zero_modulus f c m).
Proof.
  split.
  - intros f c m H. apply accepted_outcome.
    + now apply range_check.
    + now apply vco_check_passes.
  - intros f c m Hv Hs. pose proof (supported_range_check f Hs) as Hr.
    apply accepted_outcome; [exact Hr | ].
    now apply vco_check_passes_binary64.
Qed.

(** X16.  On doubles a NaN frequency is not refused: both comparisons of
    the range check are false on NaN, the divider chosen is 64, both
    comparisons of the VCO check are false on NaN * 64, and [setFrequency]
    goes on to the synthesis; it never returns [false], and when it
    returns, NaN is the stored frequency.  (The conversion of the NaN
    ratio to [uint16_t] that follows is undefined in C++; the outcome
    stated here holds for any value it gives.) *)
Theorem NaN_is_not_rejected (c : spec_float) (m : machine spec_float) :
  dlt S754_nan (lit 35) || dgt S754_nan (lit 4400) = false /\
  selectOutputDivider S754_nan = (lit 64, 6) /\
  vco_rejected S754_nan = false /\
  (forall m', setFrequency S754_nan c m <> Ok false m') /\
  succeeds_unless_zero_modulus S754_nan c m /\
  (forall r m', setFrequency S754_nan c m = Ok r m' ->
                getFrequency m' = Ok S754_nan m').
Proof.
  assert (Hr : dlt S754_nan (lit 35) || dgt S754_nan (lit 4400) = false)
    by reflexivity.
  assert (Hv : vco_rejected S754_nan = false) by reflexivity.
  pose proof (accepted_outcome S754_nan c m Hr Hv) as Ho.
  split; [exact Hr | ]. split; [reflexivity | ]. split; [exact Hv | ].
  split; [ | split; [exact Ho | ]].
  - intros m' H. destruct Ho as [[_ E] | (_ & m2 & E & _)];
      rewrite E in H; discriminate.
  - intros r m' H. destruct Ho as [[_ E] | (_ & m2 & E & Et)];
      rewrite E in H; [discriminate | ].
    apply Ok_inj in H as [_ <-].
    unfold getFrequency, bind, get_this, ret. now rewrite Et.
Qed.

Section Begin.

Context {double : Type} {arith : Double double}.

Implicit Types (m : machine double) (f c ref : double).

(** X17.  [begin] sets up the LE pin and the SPI bus and programs nothing:
    it returns, stores the reference frequency, recomputes the
    phase-detector frequency with the R counter and flags the object
    holds, leaves the output frequency and the settings, and the sink
    receives no word; the first words the chip gets are the six of the
    next successful [setFrequency]. *)
Theorem begin_programs_nothing ref m :
  exists m1,
    begin ref m = Ok tt m1 /\
    bus m1 = bus m ++ [PinModeOutput (_lePin (this m));
                       DigitalWrite (_lePin (this m)) HIGH;
                       SPIBegin; SPISetDataMode0; SPISetBitOrderMSBFirst] /\
    emits m m1 [] /\
    _refFreqMHz (this m1) = ref /\
    _pfdFreqMHz (this m1)
    = ddiv (dmul ref (of_int (1 + _refDoubler (this m))))
           (of_int (_rCounter (this m) * (1 + _refDiv2 (this m)))) /\
    _outputFreqMHz (this m1) = _outputFreqMHz (this m) /\
    (settings_in_range (this m) -> settings_in_range (this m1)) /\
    (forall f c m2,
        setFrequency f c m1 = Ok true m2 ->
        exists r5 r4 r3 r2 r1 r0, emits m m2 [r5; r4; r3; r2; r1; r0]).
Proof.
  eexists. split; [reflexivity | ].
  cbn [bus this]. split.
  { repeat rewrite <- app_assoc. reflexivity. }
  split.
  { eexists. split; [repeat rewrite <- app_assoc; reflexivity | ].
    reflexivity. }
  split; [reflexivity | ]. split; [reflexivity | ]. split; [reflexivity | ].
  split; [intro H; exact H | ].
  intros f c m2 H.
  apply setFrequency_true_inv in H as (s & _ & _ & Hb & _).
  cbn [bus this] in Hb.
  exists reg5, (reg4 (this m2) s), reg3, (reg2 (this m2) s), (reg1 s),
    (reg0 s).
  eexists. split.
  - rewrite Hb. repeat rewrite <- app_assoc. reflexivity.
  - cbn [app sink_words].
    apply (sink_words_frames _ (words (this m2) s)), words_range.
Qed.

End Begin.

(** ** Instances of the further properties *)

Lemma power_on_settings (double : Type) (arith : Double double) (lePin : Z) :
  settings_in_range (this (power_on (double := double) lePin)).
Proof. unfold settings_in_range, uint8. cbn. lia. Qed.

Lemma writeRegister_round_trip_witness :
  0 <= 0x00580005 < 2 ^ 32 /\
  exists m' : machine spec_float,
    writeRegister 0x00580005 (power_on 10) = Ok tt m' /\
    this m' = this (power_on 10) /\
    bus m' = bus (power_on 10)
             ++ frame (_lePin (this (power_on 10))) 0x00580005 /\
    emits (power_on 10) m' [0x00580005] /\
    (forall b,
        In (SPITransfer b) (frame (_lePin (this (power_on 10))) 0x00580005) ->
        0 <= b <= 255).
Proof.
  assert (H : 0 <= 0x00580005 < 2 ^ 32) by (split; [lia | reflexivity]).
  split; [exact H | ].
  exact (writeRegister_round_trip 0x00580005 (power_on 10) H).
Defined.

Lemma settings_stay_in_range_witness :
  settings_in_range (this (power_on 10 : machine spec_float)) /\
  uint8 2 /\ uint8 1 /\ uint8 0 /\
  setReference (lit 10) 2 1 0 (power_on 10 : machine spec_float)
  = Ok tt (after (setReference (lit 10) 2 1 0) (power_on 10)) /\
  settings_in_range
    (this (after (setReference (lit 10 : spec_float) 2 1 0) (power_on 10))).
Proof.
  assert (Hs : settings_in_range (this (power_on 10 : machine spec_float)))
    by apply power_on_settings.
  assert (H2 : uint8 2) by (unfold uint8; lia).
  assert (H1 : uint8 1) by (unfold uint8; lia).
  assert (H0 : uint8 0) by (unfold uint8; lia).
  assert (E : setReference (lit 10) 2 1 0 (power_on 10 : machine spec_float)
              = Ok tt (after (setReference (lit 10) 2 1 0) (power_on 10)))
    by reflexivity.
  destruct (proj2 settings_stay_in_range (power_on 10) Hs)
    as (_ & Hr & _).
  split; [exact Hs | ]. split; [exact H2 | ]. split; [exact H1 | ].
  split; [exact H0 | ]. split; [exact E | ].
  exact (Hr (lit 10) 2 1 0 _ H2 H1 H0 E).
Defined.

Lemma registers_carry_settings_witness :
  settings_in_range (this (power_on 10 : machine spec_float)) /\
  _refDiv2 (this (power_on 10 : machine spec_float)) <= 1 /\
  _refDoubler (this (power_on 10 : machine spec_float)) <= 1 /\
  setFrequency (lit 1000) (lit 0.01) (power_on 10)
  = Ok true tuned_1000_binary64 /\
  exists r5 r4 r3 r2 r1 r0,
    emits (power_on 10) tuned_1000_binary64 [r5; r4; r3; r2; r1; r0] /\
    field r4 3 2 = _outputPower (this (power_on 10 : machine spec_float)) /\
    field r4 5 1 = _rfOutputEnable (this (power_on 10 : machine spec_float)) /\
    field r2 9 4 = _chargePumpCurr (this (power_on 10 : machine spec_float)) /\
    field r2 14 10 = _rCounter (this (power_on 10 : machine spec_float)) /\
    field r2 24 1 = _refDiv2 (this (power_on 10 : machine spec_float)) /\
    field r2 25 1 = _refDoubler (this (power_on 10 : machine spec_float)).
Proof.
  assert (Hs : settings_in_range (this (power_on 10 : machine spec_float)))
    by apply power_on_settings.
  assert (Hv : _refDiv2 (this (power_on 10 : machine spec_float)) <= 1)
    by (cbn; lia).
  assert (Hd : _refDoubler (this (power_on 10 : machine spec_float)) <= 1)
    by (cbn; lia).
  split; [exact Hs | ]. split; [exact Hv | ]. split; [exact Hd | ].
  split; [exact tuned_1000_binary64_run | ].
  exact (registers_carry_settings (lit 1000) (lit 0.01) (power_on 10)
           tuned_1000_binary64 Hs Hv Hd tuned_1000_binary64_run).
Defined.

Lemma setters_take_effect_witness :
  settings_in_range (this (power_on 10 : machine spec_float)) /\
  uint8 200 /\
  setOutputPower 200 (power_on 10 : machine spec_float)
  = Ok tt (after (setOutputPower 200) (power_on 10)) /\
  setFrequency (lit 1000) (lit 0.01)
    (after (setOutputPower 200) (power_on 10 : machine spec_float))
  = Ok true (after (setFrequency (lit 1000) (lit 0.01))
               (after (setOutputPower 200) (power_on 10))) /\
  (exists r5 r4 r3 r2 r1 r0,
      emits (power_on 10 : machine spec_float)
        (after (setFrequency (lit 1000) (lit 0.01))
           (after (setOutputPower 200) (power_on 10)))
        [r5; r4; r3; r2; r1; r0] /\
      field r4 3 2 = Z.min 200 3) /\
  enableOutput false (power_on 10 : machine spec_float)
  = Ok tt (after (enableOutput false) (power_on 10)) /\
  setFrequency (lit 1000) (lit 0.01)
    (after (enableOutput false) (power_on 10 : machine spec_float))
  = Ok true (after (setFrequency (lit 1000) (lit 0.01))
               (after (enableOutput false) (power_on 10))) /\
  (exists r5 r4 r3 r2 r1 r0,
      emits (power_on 10 : machine spec_float)
        (after (setFrequency (lit 1000) (lit 0.01))
           (after (enableOutput false) (power_on 10)))
        [r5; r4; r3; r2; r1; r0] /\
      field r4 5 1 = 0) /\
  setChargePumpCurrent 200 (power_on 10 : machine spec_float)
  = Ok tt (after (setChargePumpCurrent 200) (power_on 10)) /\
  setFrequency (lit 1000) (lit 0.01)
    (after (setChargePumpCurrent 200) (power_on 10 : machine spec_float))
  = Ok true (after (setFrequency (lit 1000) (lit 0.01))
               (after (setChargePumpCurrent 200) (power_on 10))) /\
  (exists r5 r4 r3 r2 r1 r0,
      emits (power_on 10 : machine spec_float)
        (after (setFrequency (lit 1000) (lit 0.01))
           (after (setChargePumpCurrent 200) (power_on 10)))
        [r5; r4; r3; r2; r1; r0] /\
      field r2 9 4 = Z.min 200 15) /\
  0 <= 1 <= 1 /\ 0 <= 0 <= 1 /\
  setReference (lit 10) 200 1 0 (power_on 10 : machine spec_float)
  = Ok tt (after (setReference (lit 10) 200 1 0) (power_on 10)) /\
  setFrequency (lit 1000) (lit 0.01)
    (after (setReference (lit 10) 200 1 0) (power_on 10 : machine spec_float))
  = Ok true (after (setFrequency (lit 1000) (lit 0.01))
               (after (setReference (lit 10) 200 1 0) (power_on 10))) /\
  (exists r5 r4 r3 r2 r1 r0,
      emits (power_on 10 : machine spec_float)
        (after (setFrequency (lit 1000) (lit 0.01))
           (after (setReference (lit 10) 200 1 0) (power_on 10)))
        [r5; r4; r3; r2; r1; r0] /\
      field r2 14 10 = 200 /\ field r2 24 1 = 0 /\ field r2 25 1 = 1).
Proof.
  assert (Hs : settings_in_range (this (power_on 10 : machine spec_float)))
    by apply power_on_settings.
  assert (H200 : uint8 200) by (unfold uint8; lia).
  assert (Hb1 : 0 <= 1 <= 1) by lia.
  assert (Hb0 : 0 <= 0 <= 1) by lia.
  destruct (setters_take_effect (lit 1000) (lit 0.01) (power_on 10) Hs)
    as (Hp & He & Hc & Hr).
  split; [exact Hs | ]. split; [exact H200 | ].
  assert (E1 : setOutputPower 200 (power_on 10 : machine spec_float)
               = Ok tt (after (setOutputPower 200) (power_on 10)))
    by reflexivity.
  assert (F1 : setFrequency (lit 1000) (lit 0.01)
                 (after (setOutputPower 200)
                    (power_on 10 : machine spec_float))
               = Ok true (after (setFrequency (lit 1000) (lit 0.01))
                            (after (setOutputPower 200) (power_on 10))))
    by (vm_compute; reflexivity).
  split; [exact E1 | ]. split; [exact F1 | ].
  split; [exact (Hp 200 _ _ H200 E1 F1) | ].
  assert (E2 : enableOutput false (power_on 10 : machine spec_float)
               = Ok tt (after (enableOutput false) (power_on 10)))
    by reflexivity.
  assert (F2 : setFrequency (lit 1000) (lit 0.01)
                 (after (enableOutput false)
                    (power_on 10 : machine spec_float))
               = Ok true (after (setFrequency (lit 1000) (lit 0.01))
                            (after (enableOutput false) (power_on 10))))
    by (vm_compute; reflexivity).
  split; [exact E2 | ]. split; [exact F2 | ].
  split; [exact (He false _ _ E2 F2) | ].
  assert (E3 : setChargePumpCurrent 200 (power_on 10 : machine spec_float)
               = Ok tt (after (setChargePumpCurrent 200) (power_on 10)))
    by reflexivity.
  assert (F3 : setFrequency (lit 1000) (lit 0.01)
                 (after (setChargePumpCurrent 200)
                    (power_on 10 : machine spec_float))
               = Ok true (after (setFrequency (lit 1000) (lit 0.01))
                            (after (setChargePumpCurrent 200) (power_on 10))))
    by (vm_compute; reflexivity).
  split; [exact E3 | ]. split; [exact F3 | ].
  split; [exact (Hc 200 _ _ H200 E3 F3) | ].
  split; [exact Hb1 | ]. split; [exact Hb0 | ].
  assert (E4 : setReference (lit 10) 200 1 0
                 (power_on 10 : machine spec_float)
               = Ok tt (after (setReference (lit 10) 200 1 0) (power_on 10)))
    by reflexivity.
  assert (F4 : setFrequency (lit 1000) (lit 0.01)
                 (after (setReference (lit 10) 200 1 0)
                    (power_on 10 : machine spec_float))
               = Ok true (after (setFrequency (lit 1000) (lit 0.01))
                            (after (setReference (lit 10) 200 1 0)
                               (power_on 10))))
    by (vm_compute; reflexivity).
  split; [exact E4 | ]. split; [exact F4 | ].
  exact (Hr (lit 10) 200 1 0 _ _ H200 Hb1 Hb0 E4 F4).
Defined.

Lemma registers_carry_ratio_witness :
  setFrequency (lit 1000) (lit 0.01) (power_on 10)
  = Ok true tuned_1000_binary64 /\
  exists s r5 r4 r3 r2 r1 r0,
    updateRegisters_synthesis (lit 0.01)
      (with_frequency (lit 1000) (power_on 10))
    = Ok (Some s) (with_frequency (lit 1000) (power_on 10)) /\
    emits (power_on 10) tuned_1000_binary64 [r5; r4; r3; r2; r1; r0] /\
    0 <= N_int s < 65536 /\ 0 <= N_frac s < MOD s /\ MOD s <= 4095 /\
    field r0 15 16 = N_int s /\ field r0 3 12 = N_frac s /\
    field r0 31 1 = 0 /\
    field r1 3 12 = MOD s /\ field r1 15 12 = 1 /\
    field r1 27 1 = (if N_int s <? 75 then 0 else 1) /\
    field r1 28 4 = 0.
Proof.
  split; [exact tuned_1000_binary64_run | ].
  exact (registers_carry_ratio (lit 1000) (lit 0.01) (power_on 10)
           tuned_1000_binary64 tuned_1000_binary64_run).
Defined.

Lemma registers_carry_mode_witness :
  settings_in_range (this (power_on 10 : machine spec_float)) /\
  setFrequency (lit 1000) (lit 0.01) (power_on 10)
  = Ok true tuned_1000_binary64 /\
  exists s r5 r4 r3 r2 r1 r0,
    updateRegisters_synthesis (lit 0.01)
      (with_frequency (lit 1000) (power_on 10))
    = Ok (Some s) (with_frequency (lit 1000) (power_on 10)) /\
    emits (power_on 10) tuned_1000_binary64 [r5; r4; r3; r2; r1; r0] /\
    field r2 7 1 = (if N_frac s =? 0 then 1 else 0) /\
    field r2 8 1 = (if N_frac s =? 0 then 1 else 0) /\
    field r2 6 1 = 1 /\ field r2 3 3 = 0 /\ field r2 13 1 = 0 /\
    RFdivSel s = snd (selectOutputDivider (lit 1000 : spec_float)) /\
    field r4 20 3 = RFdivSel s /\
    field r4 23 1 = 1 /\
    field r4 12 8 = 200 /\
    field r4 6 6 = 0.
Proof.
  assert (Hs : settings_in_range (this (power_on 10 : machine spec_float)))
    by apply power_on_settings.
  split; [exact Hs | ]. split; [exact tuned_1000_binary64_run | ].
  exact (registers_carry_mode (lit 1000) (lit 0.01) (power_on 10)
           tuned_1000_binary64 Hs tuned_1000_binary64_run).
Defined.

Lemma setFrequency_idempotent_witness :
  setFrequency (lit 1000) (lit 0.01) (power_on 10)
  = Ok true tuned_1000_binary64 /\
  exists m2 ws,
    setFrequency (lit 1000) (lit 0.01) tuned_1000_binary64 = Ok true m2 /\
    emits (power_on 10) tuned_1000_binary64 ws /\
    emits tuned_1000_binary64 m2 ws /\ length ws = 6%nat /\
    this m2 = this tuned_1000_binary64.
Proof.
  split; [exact tuned_1000_binary64_run | ].
  exact (setFrequency_idempotent (lit 1000) (lit 0.01) (power_on 10)
           tuned_1000_binary64 tuned_1000_binary64_run).
Defined.

Lemma carry_keeps_ratio_witness :
  0 <= 160 /\ 0 <= 2600 < 65536 /\ 0 <= 2500 /\ 160 + 2600 / 2500 < 65536 /\
  carry 160 2600 2500 (power_on 10 : machine spec_float)
  = Ok (161, 100) (power_on 10) /\
  power_on 10 = (power_on 10 : machine spec_float) /\ 0 < 2500 /\
  161 * 2500 + 100 = 160 * 2500 + 2600 /\ 0 <= 100 < 2500 /\
  (2600 < 2500 -> 161 = 160 /\ 100 = 2600).
Proof.
  assert (H1 : 0 <= 160) by lia.
  assert (H2 : 0 <= 2600 < 65536) by lia.
  assert (H3 : 0 <= 2500) by lia.
  assert (H4 : 160 + 2600 / 2500 < 65536) by reflexivity.
  assert (E : carry 160 2600 2500 (power_on 10 : machine spec_float)
              = Ok (161, 100) (power_on 10)) by reflexivity.
  split; [exact H1 | ]. split; [exact H2 | ]. split; [exact H3 | ].
  split; [exact H4 | ]. split; [exact E | ].
  exact (carry_keeps_ratio 160 2600 2500 (power_on 10) 161 100 (power_on 10)
           H1 H2 H3 H4 E).
Defined.


Lemma whole_ratio_is_integer_mode_witness :
  0 <= 160 < 65535 /\
  (1000 * fst (selectOutputDivider 1000%Q) / 25 == inject_Z 160)%Q /\
  updateRegisters_synthesis 0.01%Q (with_frequency 1000%Q (power_on 10))
  = Ok (Some (mkSynthesis 4%Q 2 4000%Q 160 2500 0 1 1 1 1 200))
       (with_frequency 1000%Q (power_on 10)) /\
  160 = 160 /\ 0 = 0 /\ 1 = 1 /\ 1 = 1.
Proof.
  assert (Hk : 0 <= 160 < 65535) by lia.
  assert (HN : (1000 * fst (selectOutputDivider 1000%Q) / 25
                == inject_Z 160)%Q) by reflexivity.
  assert (E : updateRegisters_synthesis 0.01%Q
                (with_frequency 1000%Q (power_on 10))
              = Ok (Some (mkSynthesis 4%Q 2 4000%Q 160 2500 0 1 1 1 1 200))
                   (with_frequency 1000%Q (power_on 10)))
    by (vm_compute; reflexivity).
  split; [exact Hk | ]. split; [exact HN | ]. split; [exact E | ].
  exact (whole_ratio_is_integer_mode 0.01%Q
           (with_frequency 1000%Q (power_on 10)) _ _ 160 Hk HN E).
Defined.

Lemma selectOutputDivider_octaves_witness :
  (35 <= 1000)%Q /\ (1000 < 2200)%Q /\ (1000 <= 1500)%Q /\
  (snd (selectOutputDivider (2 * 1000)%Q)
   = snd (selectOutputDivider 1000%Q) - 1 /\
   (2 * 1000 * fst (selectOutputDivider (2 * 1000)%Q)
    == 1000 * fst (selectOutputDivider 1000%Q))%Q) /\
  snd (selectOutputDivider 1500%Q) <= snd (selectOutputDivider 1000%Q) /\
  (fst (selectOutputDivider 1500%Q) <= fst (selectOutputDivider 1000%Q))%Q.
Proof.
  assert (H0 : (35 <= 1000)%Q) by lra.
  assert (H1 : (1000 < 2200)%Q) by lra.
  assert (H2 : (1000 <= 1500)%Q) by lra.
  split; [exact H0 | ]. split; [exact H1 | ]. split; [exact H2 | ].
  destruct (selectOutputDivider_octaves 1000%Q 1500%Q) as [Ho Hm].
  split; [exact (Ho H0 H1) | exact (Hm H2)].
Defined.


Lemma supported_call_outcome_witness :
  (35 <= 1000 <= 4400)%Q /\
  succeeds_unless_zero_modulus 1000%Q 0.01%Q (power_on 10) /\
  Binary64.valid (lit 1000) /\ supported (lit 1000 : spec_float) /\
  succeeds_unless_zero_modulus (lit 1000 : spec_float) (lit 0.01)
    (power_on 10).
Proof.
  assert (Hq : (35 <= 1000 <= 4400)%Q) by (split; lra).
  assert (Hv : Binary64.valid (lit 1000)) by (vm_compute; reflexivity).
  assert (Hs : supported (lit 1000 : spec_float))
    by (split; vm_compute; reflexivity).
  split; [exact Hq | ].
  split; [exact (proj1 supported_call_outcome 1000%Q 0.01%Q (power_on 10) Hq)
         | ].
  split; [exact Hv | ]. split; [exact Hs | ].
  exact (proj2 supported_call_outcome (lit 1000) (lit 0.01) (power_on 10)
           Hv Hs).
Defined.

Lemma begin_programs_nothing_witness :
  settings_in_range (this (power_on 10 : machine spec_float)) /\
  begin (lit 25) (power_on 10 : machine spec_float)
  = Ok tt (after (begin (lit 25)) (power_on 10)) /\
  setFrequency (lit 1000) (lit 0.01)
    (after (begin (lit 25)) (power_on 10 : machine spec_float))
  = Ok true (after (setFrequency (lit 1000) (lit 0.01))
               (after (begin (lit 25)) (power_on 10))) /\
  emits (power_on 10 : machine spec_float)
    (after (begin (lit 25)) (power_on 10)) [] /\
  settings_in_range
    (this (after (begin (lit 25)) (power_on 10 : machine spec_float))) /\
  exists r5 r4 r3 r2 r1 r0,
    emits (power_on 10 : machine spec_float)
      (after (setFrequency (lit 1000) (lit 0.01))
         (after (begin (lit 25)) (power_on 10)))
      [r5; r4; r3; r2; r1; r0].
Proof.
  assert (Hs : settings_in_range (this (power_on 10 : machine spec_float)))
    by apply power_on_settings.
  assert (E : begin (lit 25) (power_on 10 : machine spec_float)
              = Ok tt (after (begin (lit 25)) (power_on 10)))
    by reflexivity.
  assert (F : setFrequency (lit 1000) (lit 0.01)
                (after (begin (lit 25)) (power_on 10 : machine spec_float))
              = Ok true (after (setFrequency (lit 1000) (lit 0.01))
                           (after (begin (lit 25)) (power_on 10))))
    by (vm_compute; reflexivity).
  split; [exact Hs | ]. split; [exact E | ]. split; [exact F | ].
  destruct (begin_programs_nothing (lit 25)
              (power_on 10 : machine spec_float))
    as (m1 & E1 & _ & He & _ & _ & _ & Hk & Hw).
  rewrite E in E1. apply Ok_inj in E1 as [_ E1]. subst m1.
  split; [exact He | ]. split; [exact (Hk Hs) | ].
  exact (Hw (lit 1000) (lit 0.01) _ F).
Defined.


Lemma constant_registers_witness :
  setFrequency (lit 1000) (lit 0.01) (power_on 10)
  = Ok true tuned_1000_binary64 /\
  exists r4 r2 r1 r0,
    emits (power_on 10) tuned_1000_binary64
      [0x00580005; r4; 0x000004B3; r2; r1; r0] /\
    field 0x00580005 19 2 = 3 /\ field 0x00580005 22 1 = 1 /\
    field 0x00580005 3 16 = 0 /\ field 0x00580005 21 1 = 0 /\
    field 0x00580005 23 9 = 0 /\
    field 0x000004B3 3 12 = 150 /\ field 0x000004B3 15 17 = 0.
Proof.
  split; [exact tuned_1000_binary64_run | ].
  exact (constant_registers (lit 1000) (lit 0.01) (power_on 10)
           tuned_1000_binary64 tuned_1000_binary64_run).
Defined.
